(** * TB1: quota governor, cache store, freshness manager, batch orchestrator

    A shallow embedding of the acquisition pipeline of the [tradebot]
    package and the properties of its specification.

    - [tradebot/utils/rate_limiter.py]  ->  [Module RateLimiter]
    - [tradebot/data/validator.py]      ->  [Module DataValidator]
    - [tradebot/data/models.py], [tradebot/data/cache.py] -> [Module DataCache]
    - [tradebot/data/freshness.py]      ->  [Module FreshnessManager]
    - [tradebot/data/fetcher.py]        ->  [Module DataFetcher]
    - [tradebot/data/batch.py]          ->  [Module BatchProcessor]

    Python integers are [Z]; Python floats that hold seconds, minutes or
    percentages are exact rationals [Q]; [float('inf')] is a constructor of
    its own.  Dictionaries and tables with a primary key are [gmap]s.  A
    method that mutates [self] takes the object and returns the new one; a
    method that can raise returns a [result]. *)

From stdpp Require Import gmap strings list sorting.
From Stdlib Require Import ZArith QArith Lia Lqa.

Open Scope Z_scope.

(** ** Exceptions and results *)

(** The exception classes that occur in the modelled code.  All of them
    derive from Python's [Exception]; none of the [tradebot] classes derives
    from a builtin one other than [Exception]
    ([tradebot/exceptions.py]). *)
Inductive exn : Type :=
| ValueError
| TypeError
| KeyError
| ZeroDivisionError
| ConnectionError
| TimeoutError
| DataFetchError
| InvalidSymbolError
| ValidationError
| QuotaExceededError
| ConfigurationError
| CacheError.

Global Instance exn_eq_dec : EqDecision exn.
Proof. solve_decision. Defined.

Inductive result (A : Type) : Type :=
| Ok (a : A)
| Raise (e : exn).
Arguments Ok {A} a.
Arguments Raise {A} e.

(** Sequencing: the first exception raised ends the computation.  The
    notation is stdpp's [x ← r; k]. *)
Global Instance result_bind : MBind result := fun A B k r =>
  match r with
  | Ok a => k a
  | Raise e => Raise e
  end.

Global Instance result_ret : MRet result := fun A a => Ok a.

Definition is_ok {A} (r : result A) : bool :=
  match r with Ok _ => true | Raise _ => false end.

(** ** Clocks

    What the code reads from the operating system.  The readings are
    independent inputs: no relation between them is assumed. *)

(** [datetime.time]: compared field by field, as Python does. *)
Record time := mk_time { hour : Z; minute : Z; second : Z; microsecond : Z }.

Definition time_micros (t : time) : Z :=
  ((hour t * 60 + minute t) * 60 + second t) * 1000000 + microsecond t.

Definition time_leb (a b : time) : bool := time_micros a <=? time_micros b.

(** A [datetime] as the freshness logic looks at it: its position on its own
    time line in seconds, its weekday (Monday is 0) and its time of day. *)
Record datetime := mk_datetime {
  dt_seconds : Q;
  dt_weekday : Z;
  dt_time : time
}.

Record Env := mk_env {
  time_time : Q;                 (* time.time() *)
  date_today : string;           (* date.today().isoformat() *)
  datetime_now : datetime;       (* datetime.now(): naive local time *)
  datetime_now_utc : datetime;   (* datetime.now(ZoneInfo('UTC')) *)
  datetime_now_exchange : datetime (* datetime.now(self.timezone) *)
}.

(** [time.sleep(d)]: the process clock moves on by [d] seconds.  A sleep is
    at most [min_interval] long; the calendar readings are taken not to
    change across it. *)
Definition sleep (d : Q) (e : Env) : Env :=
  {| time_time := (time_time e + d)%Q;
     date_today := date_today e;
     datetime_now := datetime_now e;
     datetime_now_utc := datetime_now_utc e;
     datetime_now_exchange := datetime_now_exchange e |}.

Definition Qlt_bool (x y : Q) : bool := negb (Qle_bool y x).

(** ** Quota governor ([tradebot/utils/rate_limiter.py]) *)

Module RateLimiter.

(** [self._current_usage], a dict with the keys [date], [used] and
    [last_request_time]. *)
Record Usage := mk_usage {
  date : string;
  used : Z;
  last_request_time : Q
}.

(** The object.  [quota_tracking] is the table of the same name in the
    SQLite file at [storage_path]: [date] is its primary key, the row
    holds [requests_used] and [last_request_time].  The storage engine is
    taken to work: a statement on it does not fail. *)
Record t := mk {
  daily_limit : Z;
  min_interval : Q;
  _last_request_time : Q;
  _current_usage : Usage;
  quota_tracking : gmap string (Z * Q)
}.

Definition set_usage (rl : t) (u : Usage) : t :=
  {| daily_limit := daily_limit rl;
     min_interval := min_interval rl;
     _last_request_time := _last_request_time rl;
     _current_usage := u;
     quota_tracking := quota_tracking rl |}.

Definition set_last_request_time (rl : t) (x : Q) : t :=
  {| daily_limit := daily_limit rl;
     min_interval := min_interval rl;
     _last_request_time := x;
     _current_usage := _current_usage rl;
     quota_tracking := quota_tracking rl |}.

Definition set_table (rl : t) (tb : gmap string (Z * Q)) : t :=
  {| daily_limit := daily_limit rl;
     min_interval := min_interval rl;
     _last_request_time := _last_request_time rl;
     _current_usage := _current_usage rl;
     quota_tracking := tb |}.

(** [_load_daily_usage]: today's row, or a zeroed one. *)
Definition _load_daily_usage (e : Env) (tb : gmap string (Z * Q)) : Usage :=
  let today := date_today e in
  match tb !! today with
  | Some (requests_used, last) =>
      {| date := today; used := requests_used; last_request_time := last |}
  | None =>
      {| date := today; used := 0; last_request_time := 0%Q |}
  end.

(** [__init__] against an existing storage file. *)
Definition init (limit : Z) (interval : Q) (tb : gmap string (Z * Q))
    (e : Env) : t :=
  {| daily_limit := limit;
     min_interval := interval;
     _last_request_time := 0%Q;
     _current_usage := _load_daily_usage e tb;
     quota_tracking := tb |}.

(** [_save_daily_usage]: INSERT OR REPLACE of the current row. *)
Definition _save_daily_usage (rl : t) : t :=
  let u := _current_usage rl in
  set_table rl (<[date u := (used u, last_request_time u)]> (quota_tracking rl)).

(** [_reset_daily_quota] *)
Definition _reset_daily_quota (e : Env) (rl : t) : t :=
  let today := date_today e in
  _save_daily_usage
    (set_usage rl {| date := today; used := 0; last_request_time := 0%Q |}).

(** The test that opens every quota-sensitive method:
    [if self._current_usage['date'] != today: self._reset_daily_quota()]. *)
Definition rollover (e : Env) (rl : t) : t :=
  let today := date_today e in
  if bool_decide (date (_current_usage rl) ≠ today)
  then _reset_daily_quota e rl
  else rl.

(** [can_make_request] *)
Definition can_make_request (e : Env) (rl : t) : t * bool :=
  let rl := rollover e rl in
  if used (_current_usage rl) >=? daily_limit rl
  then (rl, false)
  else (rl, true).

(** [record_request] *)
Definition record_request (e : Env) (rl : t) : t :=
  let rl := rollover e rl in
  let u := _current_usage rl in
  let rl := set_usage rl {| date := date u;
                            used := used u + 1;
                            last_request_time := time_time e |} in
  _save_daily_usage rl.

(** [acquire].  The lock makes the body one step; threads are not
    modelled. *)
Definition acquire (e : Env) (rl : t) : Env * t * result unit :=
  let '(rl, allowed) := can_make_request e rl in
  if negb allowed
  then (e, rl, Raise QuotaExceededError)
  else
    let current_time := time_time e in
    let time_since_last := (current_time - _last_request_time rl)%Q in
    let e :=
      if Qlt_bool time_since_last (min_interval rl)
      then sleep (min_interval rl - time_since_last)%Q e
      else e in
    let rl := set_last_request_time rl (time_time e) in
    let rl := record_request e rl in
    (e, rl, Ok tt).

(** The dict that [get_usage] returns. *)
Record Report := mk_report {
  r_date : string;
  r_used : Z;
  r_limit : Z;
  r_remaining : Z;
  r_percentage : Q
}.

(** [get_usage].  [used / daily_limit] is Python's true division: it
    raises [ZeroDivisionError] for a zero limit. *)
Definition get_usage (e : Env) (rl : t) : t * result Report :=
  let rl := rollover e rl in
  let u := _current_usage rl in
  if daily_limit rl =? 0
  then (rl, Raise ZeroDivisionError)
  else (rl, Ok {| r_date := date u;
                  r_used := used u;
                  r_limit := daily_limit rl;
                  r_remaining := daily_limit rl - used u;
                  r_percentage :=
                    (inject_Z (used u) / inject_Z (daily_limit rl) * 100)%Q |}).

(** [n] calls of [record_request], the [i]-th at the clock reading
    [nth i es]. *)
Definition record_requests (es : list Env) (rl : t) : t :=
  fold_left (fun rl e => record_request e rl) es rl.

(** Today's [requests_used]: the count every quota-sensitive method works
    on once its day-rollover test has run. *)
Definition used_today (e : Env) (rl : t) : Z :=
  used (_current_usage (rollover e rl)).

(** A ledger whose current row is the zeroed row of day [d]. *)
Definition fresh_day (d : string) (rl : t) : Prop :=
  date (_current_usage rl) = d ∧ used (_current_usage rl) = 0.

(** [n] calls of [acquire], the [i]-th entered at the clock reading
    [nth i es]; a call that raises is caught by the caller. *)
Definition acquires (es : list Env) (rl : t) : t :=
  fold_left (fun rl e => (acquire e rl).1.2) es rl.

(** How [reset_quota] can end. *)
Inductive reset_outcome : Type :=
| ResetDone
| ResetValueError
| ResetRuntimeError.

(** [str.lower()], on the ASCII letters. *)
Definition lower_ascii (c : Ascii.ascii) : Ascii.ascii :=
  let n := Ascii.nat_of_ascii c in
  if (65 <=? n)%nat && (n <=? 90)%nat
  then Ascii.ascii_of_nat (n + 32)
  else c.

Fixpoint lower (s : string) : string :=
  match s with
  | EmptyString => EmptyString
  | String c s => String (lower_ascii c) (lower s)
  end.

(** [reset_quota(force)].  [force] is true only for the object [True];
    [environment] is [os.getenv('ENVIRONMENT')]. *)
Definition reset_quota (force : bool) (environment : option string)
    (e : Env) (rl : t) : t * reset_outcome :=
  if negb force then (rl, ResetValueError)
  else
    let environment := lower (default ""%string environment) in
    if bool_decide (environment = "production"%string)
    then (rl, ResetRuntimeError)
    else
      let today := date_today e in
      let rl := set_usage rl {| date := today; used := 0;
                                last_request_time := 0%Q |} in
      (set_table rl (delete today (quota_tracking rl)), ResetDone).



(** [close] *)
Definition close (rl : t) : t := _save_daily_usage rl.

End RateLimiter.

(** ** Data frames

    A pandas [DataFrame] as the code looks at it: the column names, and the
    rows in order, each with its index label and one cell per column. *)

(** A cell.  [NonNumeric s] is a value that [float()], [int()] and
    [pd.to_numeric] reject. *)
Inductive cell : Type :=
| Num (q : Q)
| NonNumeric (s : string).

(** An index label: a pandas [Timestamp] (nanoseconds since the epoch), the
    element type of a [DatetimeIndex], or any other label. *)
Inductive label : Type :=
| Timestamp (ns : Z)
| Label (s : string).

Record DataFrame := mk_df {
  columns : list string;
  rows : list (label * list cell)
}.

(** [data.empty]: true when one of the two axes has length 0. *)
Definition df_empty (d : DataFrame) : bool :=
  match columns d, rows d with
  | [], _ => true
  | _, [] => true
  | _, _ => false
  end.

(** [len(data)] *)
Definition df_len (d : DataFrame) : Z := Z.of_nat (length (rows d)).

(** [data.index] *)
Definition df_index (d : DataFrame) : list label := map fst (rows d).

(** [col in data.columns] *)
Definition has_column (d : DataFrame) (col : string) : bool :=
  bool_decide (col ∈ columns d).

(** [row[col]] *)
Fixpoint row_get (cols : list string) (cells : list cell) (col : string)
    : option cell :=
  match cols, cells with
  | k :: cols, v :: cells =>
      if bool_decide (k = col) then Some v else row_get cols cells col
  | _, _ => None
  end.

(** [data[col]]: the column as a list; a row too short for it is skipped. *)
Definition df_column (d : DataFrame) (col : string) : list cell :=
  omap (fun r => row_get (columns d) r.2 col) (rows d).

Definition is_timestamp (l : label) : bool :=
  match l with Timestamp _ => true | Label _ => false end.

(** [isinstance(data.index, pd.DatetimeIndex)] *)
Definition is_datetime_index (d : DataFrame) : bool :=
  forallb is_timestamp (df_index d).

(** [float(x)] and [int(x)] on a cell. *)
Definition to_float (c : option cell) : result Q :=
  match c with
  | Some (Num q) => Ok q
  | Some (NonNumeric _) => Raise ValueError
  | None => Raise KeyError
  end.

Definition to_int (c : option cell) : result Z :=
  match c with
  | Some (Num q) => Ok (Z.quot (Qnum q) (Z.pos (Qden q)))
  | Some (NonNumeric _) => Raise ValueError
  | None => Raise KeyError
  end.


(** ** Collaborators

    Library and provider calls whose code is outside the repository. *)
Record External := mk_external {
  (** [pd.to_datetime] on one label that is not a [Timestamp]: the
      nanoseconds of the result, or [None] when it raises [ValueError] or
      [TypeError]. *)
  to_datetime : string -> option Z;
  (** [len(pickle.dumps(data))] *)
  pickle_size : DataFrame -> Z;
  (** [TDClient(apikey).time_series(symbol, interval="1day", start_date,
      end_date, outputsize=5000).as_pandas()] *)
  time_series : string -> string -> string -> result (option DataFrame)
}.

(** ** Validation ([tradebot/data/validator.py]) *)

Module DataValidator.

Definition REQUIRED_COLUMNS : list string :=
  ["open"; "high"; "low"; "close"; "volume"]%string.
Definition NUMERIC_COLUMNS : list string :=
  ["open"; "high"; "low"; "close"; "volume"]%string.

(** [_validate_columns] *)
Definition _validate_columns (data : DataFrame) : result unit :=
  let missing_columns :=
    filter (fun col => has_column data col = false) REQUIRED_COLUMNS in
  if bool_decide (missing_columns ≠ [])
  then Raise ValidationError
  else Ok tt.

Definition is_num (c : cell) : bool :=
  match c with Num _ => true | NonNumeric _ => false end.

(** [_validate_data_types]: [pd.to_numeric(data[col], errors='raise')]
    for every numeric column that is present. *)
Definition _validate_data_types (data : DataFrame) : result unit :=
  if forallb
       (fun col => negb (has_column data col)
                   || forallb is_num (df_column data col))
       NUMERIC_COLUMNS
  then Ok tt
  else Raise ValidationError.

(** [pd.to_datetime(data.index)] *)
Definition convert_label (X : External) (l : label) : option label :=
  match l with
  | Timestamp ns => Some (Timestamp ns)
  | Label s => Timestamp <$> to_datetime X s
  end.

Definition convert_index (X : External) (data : DataFrame)
    : option DataFrame :=
  rs ← mapM (fun r : label * list cell =>
               l ← convert_label X r.1; Some (l, r.2)) (rows data);
  Some {| columns := columns data; rows := rs |}.

(** [Index.is_monotonic_increasing]: every element is less than or equal
    to the next one. *)
Fixpoint is_monotonic_increasing (ts : list Z) : bool :=
  match ts with
  | [] => true
  | a :: rest =>
      match rest with
      | [] => true
      | b :: _ => (a <=? b) && is_monotonic_increasing rest
      end
  end.

Definition timestamps (d : DataFrame) : list Z :=
  omap (fun l => match l with Timestamp ns => Some ns | Label _ => None end)
       (df_index d).

(** [_validate_chronological_order].  The method assigns the converted
    index to [data.index]: the frame it was given is the frame returned. *)
Definition _validate_chronological_order (X : External) (data : DataFrame)
    : result DataFrame :=
  data ← (if is_datetime_index data
          then Ok data
          else match convert_index X data with
               | Some d => Ok d
               | None => Raise ValidationError
               end);
  if negb (is_monotonic_increasing (timestamps data))
  then Raise ValidationError
  else Ok data.

(** [validate].  [None] is no [DataFrame]; [data : option DataFrame] is
    what the provider can hand over. *)
Definition validate (X : External) (data : option DataFrame)
    : result DataFrame :=
  match data with
  | None => Raise ValidationError
  | Some data =>
      if df_empty data then Raise ValidationError
      else
        _ ← _validate_columns data;
        _ ← _validate_data_types data;
        data ← _validate_chronological_order X data;
        Ok data
  end.

(** Chronological order of a list of timestamps, as a property of adjacent
    elements: [nondecreasing] lets two neighbours be equal,
    [strictly_increasing] does not. *)
Definition nondecreasing (ts : list Z) : Prop :=
  ∀ (i : nat) a b, ts !! i = Some a -> ts !! S i = Some b -> a <= b.

Definition strictly_increasing (ts : list Z) : Prop :=
  ∀ (i : nat) a b, ts !! i = Some a -> ts !! S i = Some b -> a < b.

End DataValidator.

(** ** Calendar dates

    [Timestamp.date()] and [date.isoformat()], which the cache relies on:
    its [DateField]s hold the ISO text of a date, and SQLite compares them as
    text. *)

Definition ns_per_day : Z := 86400 * 1000000000.

(** Day number (days since 1970-01-01) of a timestamp. *)
Definition timestamp_date (ns : Z) : Z := ns / ns_per_day.

(** Year, month and day of a day number, proleptic Gregorian calendar. *)
Definition civil_from_days (days : Z) : Z * Z * Z :=
  let z := days + 719468 in
  let era := z / 146097 in
  let doe := z - era * 146097 in
  let yoe := (doe - doe / 1460 + doe / 36524 - doe / 146096) / 365 in
  let doy := doe - (365 * yoe + yoe / 4 - yoe / 100) in
  let mp := (5 * doy + 2) / 153 in
  let d := doy - (153 * mp + 2) / 5 + 1 in
  let m := if mp <? 10 then mp + 3 else mp - 9 in
  let y := yoe + era * 400 + (if m <=? 2 then 1 else 0) in
  (y, m, d).

Definition digit (n : Z) : string :=
  String (Ascii.ascii_of_nat (48 + Z.to_nat (n mod 10))) EmptyString.

Definition digits2 (n : Z) : string := digit (n / 10) +:+ digit n.

Definition digits4 (n : Z) : string := digits2 (n / 100) +:+ digits2 n.

(** [date.isoformat()]: [YYYY-MM-DD]. *)
Definition date_isoformat (days : Z) : string :=
  let '(y, m, d) := civil_from_days days in
  digits4 y +:+ "-" +:+ digits2 m +:+ "-" +:+ digits2 d.

(** ** Cache store ([tradebot/data/models.py], [tradebot/data/cache.py]) *)

Module DataCache.

(** What a [DateField] of [StockData] holds: the date of a [Timestamp], or
    the label itself when it has no [date] method. *)
Inductive date_value : Type :=
| DateOf (days : Z)
| Raw (s : string).

Global Instance date_value_eq_dec : EqDecision date_value.
Proof. solve_decision. Defined.

(** The text SQLite stores and compares. *)
Definition date_text (d : date_value) : string :=
  match d with
  | DateOf days => date_isoformat days
  | Raw s => s
  end.

(** A row of [stock_data]; [(symbol, date)] is its primary key.  Prices
    are kept exact: the rounding of [DecimalField] is not modelled. *)
Record StockData := mk_stock {
  symbol : string;
  date : date_value;
  open_price : Q;
  high_price : Q;
  low_price : Q;
  close_price : Q;
  volume : Z;
  created_at : Q
}.

(** A row of [cache_metadata]; [cache_key] is its primary key. *)
Record CacheMetadata := mk_meta {
  cache_key : string;
  m_symbol : string;
  start_date : string;
  end_date : string;
  record_count : Z;
  data_size_bytes : Z;
  m_created_at : Q;
  last_accessed : Q
}.

(** The database: [stock_data] in insertion order, [cache_metadata] by
    key. *)
Record t := mk {
  stock_data : list StockData;
  cache_metadata : gmap string CacheMetadata
}.

Definition empty : t := {| stock_data := []; cache_metadata := ∅ |}.

(** [CacheMetadata.generate_cache_key] *)
Definition generate_cache_key (sym start_ end_ : string) : string :=
  sym +:+ "_" +:+ start_ +:+ "_" +:+ end_.

Definition same_key (a b : StockData) : bool :=
  bool_decide (symbol a = symbol b) && bool_decide (date a = date b).

(** [StockData.create(...)], and on [IntegrityError] the
    [StockData.update(...).where(symbol, date)]: the existing row keeps
    its [created_at]. *)
Fixpoint upsert (r : StockData) (tb : list StockData) : list StockData :=
  match tb with
  | [] => [r]
  | x :: tb =>
      if same_key x r
      then {| symbol := symbol x; date := date x;
              open_price := open_price r; high_price := high_price r;
              low_price := low_price r; close_price := close_price r;
              volume := volume r; created_at := created_at x |} :: tb
      else x :: upsert r tb
  end.

(** [date_index.date() if hasattr(date_index, 'date') else date_index] *)
Definition index_date (l : label) : date_value :=
  match l with
  | Timestamp ns => DateOf (timestamp_date ns)
  | Label s => Raw s
  end.

(** The body of the loop over [data.iterrows()]. *)
Definition store_row (e : Env) (sym : string) (cols : list string)
    (r : label * list cell) (acc : list StockData * Z)
    : result (list StockData * Z) :=
  let '(date_index, row) := r in
  let '(tb, records_stored) := acc in
  o ← to_float (row_get cols row "open");
  h ← to_float (row_get cols row "high");
  l ← to_float (row_get cols row "low");
  c ← to_float (row_get cols row "close");
  v ← to_int (row_get cols row "volume");
  Ok (upsert {| symbol := sym; date := index_date date_index;
                open_price := o; high_price := h; low_price := l;
                close_price := c; volume := v;
                created_at := dt_seconds (datetime_now e) |} tb,
      records_stored + 1).

Fixpoint store_rows (e : Env) (sym : string) (cols : list string)
    (rs : list (label * list cell)) (acc : list StockData * Z)
    : result (list StockData * Z) :=
  match rs with
  | [] => Ok acc
  | r :: rs => acc ← store_row e sym cols r acc; store_rows e sym cols rs acc
  end.

(** [CacheMetadata.create(...)], and on [IntegrityError] the update of
    [record_count], [data_size_bytes] and [last_accessed]. *)
Definition upsert_metadata (e : Env) (key sym start_ end_ : string)
    (records_stored data_size : Z) (tb : gmap string CacheMetadata)
    : gmap string CacheMetadata :=
  let now := dt_seconds (datetime_now e) in
  match tb !! key with
  | None =>
      <[key := {| cache_key := key; m_symbol := sym;
                  start_date := start_; end_date := end_;
                  record_count := records_stored;
                  data_size_bytes := data_size;
                  m_created_at := now; last_accessed := now |}]> tb
  | Some m =>
      <[key := {| cache_key := cache_key m; m_symbol := m_symbol m;
                  start_date := start_date m; end_date := end_date m;
                  record_count := records_stored;
                  data_size_bytes := data_size;
                  m_created_at := m_created_at m;
                  last_accessed := now |}]> tb
  end.

Definition required_columns : list string :=
  ["open"; "high"; "low"; "close"; "volume"]%string.

(** [store].  The writes run inside [database.atomic()]: an exception
    rolls them back and is raised again. *)
Definition store (X : External) (e : Env) (sym start_ end_ : string)
    (data : DataFrame) (c : t) : t * result unit :=
  if df_empty data then (c, Ok tt)
  else
    let missing_columns :=
      filter (fun col => has_column data col = false) required_columns in
    if bool_decide (missing_columns ≠ [])
    then (c, Raise ValueError)
    else
      match store_rows e sym (columns data) (rows data) (stock_data c, 0) with
      | Raise ex => (c, Raise ex)
      | Ok (tb, records_stored) =>
          let key := generate_cache_key sym start_ end_ in
          let data_size := pickle_size X data in
          ({| stock_data := tb;
              cache_metadata :=
                upsert_metadata e key sym start_ end_ records_stored
                                data_size (cache_metadata c) |},
           Ok tt)
      end.

(** [order_by(StockData.date)]: insertion sort on the stored text. *)
Fixpoint insert_by_date (r : StockData) (l : list StockData)
    : list StockData :=
  match l with
  | [] => [r]
  | x :: l' =>
      if String.leb (date_text (date r)) (date_text (date x))
      then r :: x :: l'
      else x :: insert_by_date r l'
  end.

Definition order_by_date (l : list StockData) : list StockData :=
  foldr insert_by_date [] l.

(** The [SELECT] of [get]. *)
Definition select_range (sym start_ end_ : string) (tb : list StockData)
    : list StockData :=
  order_by_date
    (filter (fun r => symbol r = sym
                      ∧ String.leb start_ (date_text (date r)) = true
                      ∧ String.leb (date_text (date r)) end_ = true) tb).

(** [metadata.update_access_time()] *)
Definition update_access_time (e : Env) (m : CacheMetadata) : CacheMetadata :=
  {| cache_key := cache_key m; m_symbol := m_symbol m;
     start_date := start_date m; end_date := end_date m;
     record_count := record_count m; data_size_bytes := data_size_bytes m;
     m_created_at := m_created_at m;
     last_accessed := dt_seconds (datetime_now e) |}.

(** [pd.to_datetime(dates)] on the dates read back. *)
Definition date_timestamp (X : External) (d : date_value) : option label :=
  match d with
  | DateOf days => Some (Timestamp (days * ns_per_day))
  | Raw s => Timestamp <$> to_datetime X s
  end.

Definition record_row (X : External) (r : StockData)
    : option (label * list cell) :=
  l ← date_timestamp X (date r);
  Some (l, [Num (open_price r); Num (high_price r); Num (low_price r);
            Num (close_price r); Num (inject_Z (volume r))]).

(** [get].  Any exception inside is caught and turned into [None]; the
    access time written before it stays written. *)
Definition get (X : External) (e : Env) (sym start_ end_ : string) (c : t)
    : t * option DataFrame :=
  let key := generate_cache_key sym start_ end_ in
  match cache_metadata c !! key with
  | None => (c, None)
  | Some metadata =>
      let c := {| stock_data := stock_data c;
                  cache_metadata :=
                    <[key := update_access_time e metadata]>
                      (cache_metadata c) |} in
      let records := select_range sym start_ end_ (stock_data c) in
      match records with
      | [] => (c, None)
      | _ =>
          match mapM (record_row X) records with
          | Some rs =>
              (c, Some {| columns := required_columns; rows := rs |})
          | None => (c, None)
          end
      end
  end.


(** [get_metadata]: the row as a dict, or [None]. *)
Definition get_metadata (sym start_ end_ : string) (c : t)
    : option CacheMetadata :=
  cache_metadata c !! generate_cache_key sym start_ end_.

(** Python truthiness of the two optional arguments of [clear_cache]:
    [None], the empty string and 0 all count as absent. *)
Definition truthy_string (s : option string) : option string :=
  match s with
  | Some s => if bool_decide (s = ""%string) then None else Some s
  | None => None
  end.

Definition truthy_int (n : option Z) : option Z :=
  match n with
  | Some n => if n =? 0 then None else Some n
  | None => None
  end.

(** The [WHERE] clause that [clear_cache] builds, on the symbol and the
    creation time of a row of either table. *)
Definition clear_matches (e : Env) (sym : option string)
    (older_than_days : option Z) (row_symbol : string) (row_created_at : Q)
    : bool :=
  match truthy_string sym with
  | Some s => bool_decide (row_symbol = s)
  | None => true
  end
  &&
  match truthy_int older_than_days with
  | Some days =>
      let cutoff_date :=
        (dt_seconds (datetime_now e) - inject_Z (days * 86400))%Q in
      Qlt_bool row_created_at cutoff_date
  | None => true
  end.

(** [clear_cache]: the cache left and the number of rows deleted. *)
Definition clear_cache (e : Env) (sym : option string)
    (older_than_days : option Z) (c : t) : t * Z :=
  let stock_hit (r : StockData) :=
    clear_matches e sym older_than_days (symbol r) (created_at r) in
  let metadata_hit (m : CacheMetadata) :=
    clear_matches e sym older_than_days (m_symbol m) (m_created_at m) in
  let stock_deleted :=
    Z.of_nat (length (filter (fun r => stock_hit r = true) (stock_data c))) in
  let metadata_deleted :=
    Z.of_nat (size (filter (fun kv : string * CacheMetadata =>
                              metadata_hit kv.2 = true) (cache_metadata c))) in
  let total_deleted := stock_deleted + metadata_deleted in
  ({| stock_data := filter (fun r => stock_hit r = false) (stock_data c);
      cache_metadata :=
        filter (fun kv : string * CacheMetadata =>
                  metadata_hit kv.2 = false) (cache_metadata c) |},
   total_deleted).


(** The primary key of a row of [stock_data]. *)
Definition stock_key (r : StockData) : string * date_value :=
  (symbol r, date r).

End DataCache.

(** ** Freshness manager ([tradebot/data/freshness.py]) *)

Module FreshnessManager.

(** A Python float that holds a number of minutes, or [float('inf')]. *)
Inductive minutes : Type :=
| Finite (q : Q)
| Infinity.

(** [age_minutes <= threshold_minutes] for an [int] threshold. *)
Definition minutes_le (age : minutes) (threshold : Z) : bool :=
  match age with
  | Finite q => Qle_bool q (inject_Z threshold)
  | Infinity => false
  end.

Definition market_open_time : time := mk_time 9 30 0 0.
Definition market_close_time : time := mk_time 16 0 0 0.

(** [self.default_freshness_minutes] *)
Definition intraday : Z := 5.
Definition daily : Z := 60.
Definition after_hours : Z := 240.
Definition weekend : Z := 1440.

(** [get_cache_age].  [created_at] is the naive local time of the store,
    read back as if it were UTC; parsing the ISO text that
    [get_metadata] produced does not fail. *)
Definition get_cache_age (e : Env) (sym start_ end_ : string)
    (c : DataCache.t) : minutes :=
  match DataCache.get_metadata sym start_ end_ c with
  | None => Infinity
  | Some metadata =>
      let created_at := DataCache.m_created_at metadata in
      let now := dt_seconds (datetime_now_utc e) in
      let age_delta := (now - created_at)%Q in
      let m := (age_delta / 60)%Q in
      Finite (if Qlt_bool 0 m then m else 0%Q)
  end.

(** The [dt] argument after the first lines of [is_weekend] and
    [is_market_open]: [datetime.now()] when it is [None], else [dt] itself
    seen in the exchange's time zone. *)
Definition localize (e : Env) (dt : option datetime) : datetime :=
  match dt with
  | None => datetime_now e
  | Some dt => dt
  end.

(** [is_weekend] *)
Definition is_weekend (e : Env) (dt : option datetime) : bool :=
  let dt := localize e dt in
  dt_weekday dt >=? 5.

(** [is_market_open] *)
Definition is_market_open (e : Env) (dt : option datetime) : bool :=
  let dt := localize e dt in
  if is_weekend e (Some dt) then false
  else
    let current_time := dt_time dt in
    time_leb market_open_time current_time
    && time_leb current_time market_close_time.

(** [_get_adaptive_threshold] *)
Definition _get_adaptive_threshold (e : Env) : Z :=
  let now := datetime_now_exchange e in
  if is_weekend e (Some now) then weekend
  else if is_market_open e (Some now) then intraday
  else after_hours.

(** [is_data_fresh] *)
Definition is_data_fresh (e : Env) (sym start_ end_ : string)
    (threshold_minutes : option Z) (c : DataCache.t) : bool :=
  let age_minutes := get_cache_age e sym start_ end_ c in
  let threshold_minutes :=
    match threshold_minutes with
    | None => _get_adaptive_threshold e
    | Some th => th
    end in
  minutes_le age_minutes threshold_minutes.

(** [should_invalidate_cache] *)
Definition should_invalidate_cache (e : Env) (sym start_ end_ : string)
    (c : DataCache.t) : bool :=
  match DataCache.get_metadata sym start_ end_ c with
  | None => false
  | Some _ => negb (is_data_fresh e sym start_ end_ None c)
  end.

(** [dt.replace(hour=h, minute=m, second=0, microsecond=0)]: the same
    day, the time of day set; the position on the time line moves by the
    difference of the two times of day. *)
Definition replace_time (dt : datetime) (h m : Z) : datetime :=
  let t := mk_time h m 0 0 in
  {| dt_seconds :=
       (dt_seconds dt
        - inject_Z (time_micros (dt_time dt) - time_micros t) / 1000000)%Q;
     dt_weekday := dt_weekday dt;
     dt_time := t |}.

(** [get_market_open_time] *)
Definition get_market_open_time (e : Env) (dt : option datetime) : datetime :=
  let dt := localize e dt in
  replace_time dt (hour market_open_time) (minute market_open_time).





(** [invalidate_cache_entry] *)
Definition invalidate_cache_entry (e : Env) (sym start_ end_ : string)
    (c : DataCache.t) : DataCache.t * bool :=
  let '(c, deleted_count) := DataCache.clear_cache e (Some sym) None c in
  if deleted_count >? 0 then (c, true) else (c, false).

End FreshnessManager.

(** ** The acquisition orchestrators *)

(** The objects a fetch works on, and the log of provider calls. *)
Record World := mk_world {
  env : Env;
  rate_limiter : RateLimiter.t;
  cache : DataCache.t;
  api_calls : list (string * string * string)
}.

Definition set_rate_limiter (w : World) (rl : RateLimiter.t) : World :=
  {| env := env w; rate_limiter := rl; cache := cache w;
     api_calls := api_calls w |}.

Definition set_cache (w : World) (c : DataCache.t) : World :=
  {| env := env w; rate_limiter := rate_limiter w; cache := c;
     api_calls := api_calls w |}.

Definition log_api_call (w : World) (sym start_ end_ : string) : World :=
  {| env := env w; rate_limiter := rate_limiter w; cache := cache w;
     api_calls := api_calls w ++ [(sym, start_, end_)] |}.

(** The [except Exception as e] clause that closes both fetch methods:
    [InvalidSymbolError] is raised again, anything else becomes
    [DataFetchError]. *)
Definition wrap_fetch_error {A} (r : result A) : result A :=
  match r with
  | Ok a => Ok a
  | Raise InvalidSymbolError => Raise InvalidSymbolError
  | Raise _ => Raise DataFetchError
  end.

(** *** Single symbol ([tradebot/data/fetcher.py]) *)

Module DataFetcher.

(** [_is_fresh]: "For now, assume cached data is fresh.  This will be
    implemented properly in Phase 3". *)
Definition _is_fresh (cached_data : DataFrame) : bool := true.

(** [_validate_data] *)
Definition _validate_data (X : External) (data : option DataFrame)
    : result DataFrame :=
  match data with
  | None => Raise ValueError
  | Some d =>
      if df_empty d then Raise ValueError
      else DataValidator.validate X (Some d)
  end.

(** The body of the [try] block. *)
Definition fetch_from_api (X : External) (sym start_ end_ : string)
    (w : World) : World * result DataFrame :=
  let w := log_api_call w sym start_ end_ in
  match time_series X sym start_ end_ with
  | Raise ex => (w, Raise ex)
  | Ok data =>
      let w := set_rate_limiter w
                 (RateLimiter.record_request (env w) (rate_limiter w)) in
      match _validate_data X data with
      | Raise ex => (w, Raise ex)
      | Ok validated_data =>
          let '(c, r) := DataCache.store X (env w) sym start_ end_
                                         validated_data (cache w) in
          let w := set_cache w c in
          match r with
          | Raise ex => (w, Raise ex)
          | Ok _ => (w, Ok validated_data)
          end
      end
  end.

(** [fetch_historical_data] *)
Definition fetch_historical_data (X : External) (sym start_ end_ : string)
    (w : World) : World * result DataFrame :=
  let '(c, cached_data) := DataCache.get X (env w) sym start_ end_ (cache w) in
  let w := set_cache w c in
  let miss :=
    let '(rl, allowed) :=
      RateLimiter.can_make_request (env w) (rate_limiter w) in
    let w := set_rate_limiter w rl in
    if negb allowed then (w, Raise QuotaExceededError)
    else
      let '(w, r) := fetch_from_api X sym start_ end_ w in
      (w, wrap_fetch_error r) in
  match cached_data with
  | Some d => if _is_fresh d then (w, Ok d) else miss
  | None => miss
  end.

End DataFetcher.

(** *** Batches ([tradebot/data/batch.py]) *)

(** [l[:n]] for a Python list and an [int] that may be negative. *)
Definition slice_to {A} (l : list A) (n : Z) : list A :=
  if 0 <=? n
  then take (Z.to_nat n) l
  else take (Z.to_nat (Z.of_nat (length l) + n)) l.

Module BatchProcessor.

(** [calculate_optimal_batch_size] *)
Definition calculate_optimal_batch_size (symbols : list string) (w : World)
    : World * result Z :=
  let '(rl, r) := RateLimiter.get_usage (env w) (rate_limiter w) in
  let w := set_rate_limiter w rl in
  match r with
  | Raise ex => (w, Raise ex)
  | Ok usage =>
      let remaining_quota := RateLimiter.r_remaining usage in
      let total_requests_needed := Z.of_nat (length symbols) in
      let optimal_size := Z.min total_requests_needed remaining_quota in
      let optimal_size :=
        if (remaining_quota >? 0) && (optimal_size =? 0)
        then 1 else optimal_size in
      (w, Ok optimal_size)
  end.

(** The body of the [try] block of [_fetch_single_symbol]. *)
Definition fetch_from_api (X : External) (sym start_ end_ : string)
    (w : World) : World * result DataFrame :=
  let w := log_api_call w sym start_ end_ in
  match time_series X sym start_ end_ with
  | Raise ex => (w, Raise ex)
  | Ok data =>
      let w := set_rate_limiter w
                 (RateLimiter.record_request (env w) (rate_limiter w)) in
      match DataValidator.validate X data with
      | Raise ex => (w, Raise ex)
      | Ok validated_data =>
          let '(c, r) := DataCache.store X (env w) sym start_ end_
                                         validated_data (cache w) in
          let w := set_cache w c in
          match r with
          | Raise ex => (w, Raise ex)
          | Ok _ => (w, Ok validated_data)
          end
      end
  end.

(** [_fetch_single_symbol]; its return type is [Optional[DataFrame]]. *)
Definition _fetch_single_symbol (X : External) (start_ end_ : string)
    (sym : string) (w : World) : World * result (option DataFrame) :=
  let '(c, cached_data) := DataCache.get X (env w) sym start_ end_ (cache w) in
  let w := set_cache w c in
  match cached_data with
  | Some d => (w, Ok (Some d))
  | None =>
      let '(rl, allowed) :=
        RateLimiter.can_make_request (env w) (rate_limiter w) in
      let w := set_rate_limiter w rl in
      if negb allowed then (w, Raise QuotaExceededError)
      else
        let '(w, r) := fetch_from_api X sym start_ end_ w in
        (w, d ← wrap_fetch_error r; Ok (Some d))
  end.

Section Loop.

(** [self._fetch_single_symbol], with the date range fixed; the tests
    replace it by stand-ins. *)
Variable fetch : string -> World -> World * result (option DataFrame).

(** [for symbol in symbols_to_process: try: ... except ...: continue] *)
Fixpoint process (symbols_to_process : list string) (w : World)
    (results : gmap string DataFrame) : World * gmap string DataFrame :=
  match symbols_to_process with
  | [] => (w, results)
  | sym :: rest =>
      let '(w, r) := fetch sym w in
      match r with
      | Ok (Some data) => process rest w (<[sym := data]> results)
      | Ok None => process rest w results
      | Raise InvalidSymbolError => process rest w results
      | Raise _ => process rest w results
      end
  end.

(** What the calls of [fetch] in that loop return, in order. *)
Fixpoint outcomes (symbols_to_process : list string) (w : World)
    : list (result (option DataFrame)) :=
  match symbols_to_process with
  | [] => []
  | sym :: rest =>
      let '(w, r) := fetch sym w in
      r :: outcomes rest w
  end.

(** [fetch_multiple_symbols] *)
Definition fetch_multiple_symbols_with (symbols : list string) (w : World)
    : World * result (gmap string DataFrame) :=
  let results : gmap string DataFrame := ∅ in
  let '(w, r) := calculate_optimal_batch_size symbols w in
  match r with
  | Raise ex => (w, Raise ex)
  | Ok batch_size =>
      if batch_size =? 0 then (w, Raise QuotaExceededError)
      else
        let symbols_to_process := slice_to symbols batch_size in
        let '(w, results) := process symbols_to_process w results in
        (w, Ok results)
  end.

End Loop.

Definition fetch_multiple_symbols (X : External) (symbols : list string)
    (start_ end_ : string) (w : World)
    : World * result (gmap string DataFrame) :=
  fetch_multiple_symbols_with (_fetch_single_symbol X start_ end_) symbols w.

(** [calculate_total_requests_needed] *)
Definition calculate_total_requests_needed (symbols : list string) : Z :=
  Z.of_nat (length symbols).



End BatchProcessor.

(** ** Observations on a world *)

(** Today's count and the limit of the limiter of a world. *)
Definition quota_used (w : World) : Z :=
  RateLimiter.used_today (env w) (rate_limiter w).

Definition quota_limit (w : World) : Z :=
  RateLimiter.daily_limit (rate_limiter w).

(** The number of provider calls made so far. *)
Definition calls_made (w : World) : Z := Z.of_nat (length (api_calls w)).

(** ** Error recovery *)

Module ErrorRecovery.

(** Modelled from the spec: the module [tradebot/data/recovery.py] with
    the class [ErrorRecovery] is not among the sources; only its test
    ([TestErrorRecovery] in [tests/unit/test_phase3_advanced.py]) is.
    The specification describes [calculate_backoff_time(attempt)] as
    "strictly increasing in attempt, starting at >= 1 second, capped at 60
    seconds (e.g., doubling per attempt, clamped)": one second for the
    first attempt, doubled for each further one, clamped at 60. *)
Definition calculate_backoff_time (attempt : Z) : Q :=
  inject_Z (Z.min 60 (1 * 2 ^ (attempt - 1))).

End ErrorRecovery.

(** * Scenarios

    Concrete inputs for the examples that accompany the properties. *)

Module Scenario.

Definition ohlcv : list string := DataValidator.REQUIRED_COLUMNS.

(** 2024-01-01 is day 19723; two daily bars. *)
Definition sample_data : DataFrame :=
  {| columns := ohlcv;
     rows := [ (Timestamp (19723 * ns_per_day),
                [Num 150; Num 155; Num 149; Num 154; Num 1000000]);
               (Timestamp (19724 * ns_per_day),
                [Num 151; Num 156; Num 150; Num 155; Num 1100000]) ] |}.

(** The same bars with the [volume] column dropped. *)
Definition no_volume : DataFrame :=
  {| columns := ["open"; "high"; "low"; "close"]%string;
     rows := [ (Timestamp (19723 * ns_per_day),
                [Num 150; Num 155; Num 149; Num 154]) ] |}.

(** No rows. *)
Definition no_rows : DataFrame := {| columns := ohlcv; rows := [] |}.

(** Two bars that carry the same date. *)
Definition duplicate_dates : DataFrame :=
  {| columns := ohlcv;
     rows := [ (Timestamp (19723 * ns_per_day),
                [Num 150; Num 155; Num 149; Num 154; Num 1000000]);
               (Timestamp (19723 * ns_per_day),
                [Num 151; Num 156; Num 150; Num 155; Num 1100000]) ] |}.

(** 2024-01-03 before 2024-01-01. *)
Definition out_of_order : DataFrame :=
  {| columns := ohlcv;
     rows := [ (Timestamp (19725 * ns_per_day),
                [Num 150; Num 155; Num 149; Num 154; Num 1000000]);
               (Timestamp (19723 * ns_per_day),
                [Num 151; Num 156; Num 150; Num 155; Num 1100000]) ] |}.

(** A provider that knows every symbol but [INVALID]. *)
Definition provider : External :=
  {| to_datetime := fun _ => None;
     pickle_size := fun _ => 1024;
     time_series := fun sym _ _ =>
       if bool_decide (sym = "INVALID"%string)
       then Raise InvalidSymbolError
       else Ok (Some sample_data) |}.

(** Monday 2024-01-15, 10:00 at the exchange, 25 hours after [stored_at]. *)
Definition monday_10am : datetime :=
  {| dt_seconds := 90000; dt_weekday := 0; dt_time := mk_time 10 0 0 0 |}.

Definition now : Env :=
  {| time_time := 90000;
     date_today := "2024-01-15";
     datetime_now := monday_10am;
     datetime_now_utc := monday_10am;
     datetime_now_exchange := monday_10am |}.

Definition sunday_9am : datetime :=
  {| dt_seconds := 0; dt_weekday := 6; dt_time := mk_time 9 0 0 0 |}.

Definition stored_at : Env :=
  {| time_time := 0;
     date_today := "2024-01-14";
     datetime_now := sunday_9am;
     datetime_now_utc := sunday_9am;
     datetime_now_exchange := sunday_9am |}.

(** A limiter opened today on an empty ledger, limit 10. *)
Definition limiter : RateLimiter.t :=
  RateLimiter.init 10 (15 # 2) ∅ now.

(** A limiter opened with limit 10 on a ledger that already holds 12
    requests for today. *)
Definition limiter_over : RateLimiter.t :=
  RateLimiter.init 10 (15 # 2) {[ "2024-01-15"%string := (12, 0%Q) ]} now.

(** A limiter opened with limit 3 on an empty ledger. *)
Definition limiter3 : RateLimiter.t :=
  RateLimiter.init 3 (15 # 2) ∅ now.

(** The cache after [store("AAPL", "2024-01-01", "2024-01-05", sample_data)]
    at [stored_at]. *)
Definition cache_day_old : DataCache.t :=
  (DataCache.store provider stored_at "AAPL" "2024-01-01" "2024-01-05"
                   sample_data DataCache.empty).1.

Definition world_empty : World :=
  {| env := now; rate_limiter := limiter; cache := DataCache.empty;
     api_calls := [] |}.

Definition world_stale : World :=
  {| env := now; rate_limiter := limiter; cache := cache_day_old;
     api_calls := [] |}.

Definition world_over : World :=
  {| env := now; rate_limiter := limiter_over; cache := DataCache.empty;
     api_calls := [] |}.

(** A limiter that recorded one request the day before. *)
Definition limiter_yesterday : RateLimiter.t :=
  RateLimiter.record_request stored_at
    (RateLimiter.init 10 (15 # 2) ∅ stored_at).

(** The range served from [cache_day_old], and another one. *)
Definition january : string := "2024-01-31".


Definition five_symbols : list string :=
  ["AAPL"; "MSFT"; "GOOGL"; "AMZN"; "TSLA"]%string.

End Scenario.

(** * Properties *)

(** ** The model on small inputs *)

Example date_isoformat_2024 :
  date_isoformat 19723 = "2024-01-01"%string
  ∧ date_isoformat 19782 = "2024-02-29"%string
  ∧ date_isoformat 0 = "1970-01-01"%string.
Proof. by vm_compute. Qed.

Example slice_to_python :
  slice_to [1; 2; 3; 4; 5] 3 = [1; 2; 3]
  ∧ slice_to [1; 2; 3; 4; 5] 9 = [1; 2; 3; 4; 5]
  ∧ slice_to [1; 2; 3; 4; 5] (-2) = [1; 2; 3]
  ∧ slice_to [1; 2; 3] (-7) = [].
Proof. by vm_compute. Qed.

(** What was stored is what [get] reads back, in date order. *)
Example store_then_get :
  (DataCache.get Scenario.provider Scenario.now
     "AAPL" "2024-01-01" "2024-01-05" Scenario.cache_day_old).2
  = Some Scenario.sample_data
  ∧ (DataCache.get Scenario.provider Scenario.now
       "AAPL" "2024-01-01" "2024-01-04" Scenario.cache_day_old).2 = None.
Proof. by vm_compute. Qed.

(** ** Quota governor *)

Section QuotaGovernor.

Import RateLimiter.

Lemma rollover_current e rl :
  date (_current_usage rl) = date_today e -> rollover e rl = rl.
Proof.
  intros Hd. unfold rollover. rewrite bool_decide_eq_false_2; [done|].
  intros Hne. by apply Hne.
Qed.

Lemma rollover_stale e rl :
  date (_current_usage rl) ≠ date_today e ->
  rollover e rl = _reset_daily_quota e rl.
Proof. intros Hd. unfold rollover. by rewrite bool_decide_eq_true_2. Qed.

Lemma rollover_date e rl :
  date (_current_usage (rollover e rl)) = date_today e.
Proof.
  destruct (decide (date (_current_usage rl) = date_today e)) as [Hd|Hd].
  - by rewrite rollover_current.
  - by rewrite rollover_stale.
Qed.

Lemma rollover_daily_limit e rl :
  daily_limit (rollover e rl) = daily_limit rl.
Proof. unfold rollover. by case_bool_decide. Qed.

Lemma rollover_last e rl :
  _last_request_time (rollover e rl) = _last_request_time rl.
Proof. unfold rollover. by case_bool_decide. Qed.

Lemma rollover_idem e e' rl :
  date_today e' = date_today e ->
  rollover e' (rollover e rl) = rollover e rl.
Proof. intros He. apply rollover_current. by rewrite rollover_date. Qed.

Lemma reset_fresh e rl : fresh_day (date_today e) (_reset_daily_quota e rl).
Proof. done. Qed.

Lemma init_fresh limit interval tb e :
  tb !! date_today e = None ->
  fresh_day (date_today e) (init limit interval tb e).
Proof.
  intros Hrow. unfold fresh_day, init, _load_daily_usage; simpl.
  by rewrite Hrow.
Qed.

Lemma record_request_used e rl :
  used (_current_usage (record_request e rl)) = used_today e rl + 1.
Proof. done. Qed.

Lemma record_request_date e rl :
  date (_current_usage (record_request e rl)) = date_today e.
Proof. unfold record_request; simpl. apply rollover_date. Qed.

Lemma record_request_daily_limit e rl :
  daily_limit (record_request e rl) = daily_limit rl.
Proof. unfold record_request; simpl. apply rollover_daily_limit. Qed.

(** The request is durable when [record_request] returns: today's row of
    the table holds the new count. *)
Lemma record_request_saved e rl :
  quota_tracking (record_request e rl) !! date_today e
  = Some (used_today e rl + 1, time_time e).
Proof.
  unfold record_request, _save_daily_usage; simpl.
  rewrite rollover_date. apply lookup_insert_eq.
Qed.

Lemma used_today_current e rl :
  date (_current_usage rl) = date_today e ->
  used_today e rl = used (_current_usage rl).
Proof. intros Hd. unfold used_today. by rewrite rollover_current. Qed.

Lemma record_requests_snoc es e rl :
  record_requests (es ++ [e]) rl = record_request e (record_requests es rl).
Proof. unfold record_requests. by rewrite fold_left_app. Qed.

(** Requests recorded on one day add up. *)
Lemma record_requests_used d es rl :
  Forall (fun e => date_today e = d) es ->
  date (_current_usage rl) = d ->
  date (_current_usage (record_requests es rl)) = d
  ∧ used (_current_usage (record_requests es rl))
    = used (_current_usage rl) + Z.of_nat (length es)
  ∧ daily_limit (record_requests es rl) = daily_limit rl.
Proof.
  induction es as [|e es IH] using rev_ind; intros Hall Hd.
  - simpl. split_and!; [done|lia|done].
  - apply Forall_app in Hall as [Hes He].
    apply Forall_inv in He.
    destruct (IH Hes Hd) as (IHd & IHu & IHl).
    rewrite record_requests_snoc, length_app, Nat2Z.inj_add.
    change (Z.of_nat (length [e])) with 1.
    split_and!.
    + by rewrite record_request_date.
    + rewrite record_request_used, used_today_current by congruence. lia.
    + by rewrite record_request_daily_limit.
Qed.

Lemma can_make_request_spec e rl :
  (can_make_request e rl).1 = rollover e rl
  ∧ ((can_make_request e rl).2 = true <-> used_today e rl < daily_limit rl).
Proof.
  unfold can_make_request, used_today.
  rewrite <- (rollover_daily_limit e rl).
  destruct (Z.geb_spec (used (_current_usage (rollover e rl)))
                       (daily_limit (rollover e rl))); simpl.
  - split; [done|]. split; [done|lia].
  - split; [done|]. split; [lia|done].
Qed.

Lemma get_usage_spec e rl :
  daily_limit rl ≠ 0 ->
  ∃ rep, (get_usage e rl).2 = Ok rep
         ∧ r_used rep = used_today e rl
         ∧ r_limit rep = daily_limit rl
         ∧ r_remaining rep = daily_limit rl - used_today e rl
         ∧ r_percentage rep
           = (inject_Z (used_today e rl) / inject_Z (daily_limit rl) * 100)%Q.
Proof.
  intros Hl. unfold get_usage, used_today.
  rewrite (rollover_daily_limit e rl).
  destruct (Z.eqb_spec (daily_limit rl) 0); [done|].
  eexists; split; [done|]. simpl. by rewrite ?rollover_daily_limit.
Qed.

End QuotaGovernor.

Section QuotaClaims.

Import RateLimiter.

(** C2.  Start from a ledger whose current row is the zeroed row of day
    [d] and call [record_request] once per element of [es], every call on
    day [d].  Then, still on day [d], [get_usage().used] is the number of
    calls (the limit must not be zero, or [get_usage] itself raises
    [ZeroDivisionError]), and [can_make_request()] is true if and only if
    that number is strictly below [daily_limit]. *)
Theorem record_request_counts (d : string) (es : list Env) (e : Env)
    (rl : t) :
  fresh_day d rl ->
  Forall (fun e' => date_today e' = d) es ->
  date_today e = d ->
  (daily_limit rl ≠ 0 ->
     ∃ rep, (get_usage e (record_requests es rl)).2 = Ok rep
            ∧ r_used rep = Z.of_nat (length es))
  ∧ ((can_make_request e (record_requests es rl)).2 = true
     <-> Z.of_nat (length es) < daily_limit rl).
Proof.
  intros [Hd Hu] Hes He.
  destruct (record_requests_used d es rl Hes Hd) as (Hd' & Hu' & Hl').
  assert (Hused : used_today e (record_requests es rl)
                  = Z.of_nat (length es)).
  { rewrite used_today_current by congruence. lia. }
  split.
  - intros Hl.
    destruct (get_usage_spec e (record_requests es rl)) as (rep & Hr & Hru & _).
    { congruence. }
    exists rep. split; [done|congruence].
  - destruct (can_make_request_spec e (record_requests es rl)) as [_ Hc].
    rewrite Hc, Hused, Hl'. done.
Qed.

(** C3.  [acquire()] raises [QuotaExceededError] exactly when
    [can_make_request()] is false at the call.  On that path the limiter
    is left as the quota check left it: today's [requests_used] is the
    same as before, and a ledger that is already on today's date is not
    changed at all.  Otherwise [acquire()] returns and today's
    [requests_used] has grown by exactly one. *)
Theorem acquire_quota (e : Env) (rl : t) :
  ((acquire e rl).2 = Raise QuotaExceededError
   <-> (can_make_request e rl).2 = false)
  ∧ ((can_make_request e rl).2 = false ->
       (acquire e rl).1.2 = (can_make_request e rl).1
       ∧ used (_current_usage (acquire e rl).1.2) = used_today e rl
       ∧ used_today e (acquire e rl).1.2 = used_today e rl
       ∧ (date (_current_usage rl) = date_today e -> (acquire e rl).1.2 = rl))
  ∧ ((can_make_request e rl).2 = true ->
       (acquire e rl).2 = Ok tt
       ∧ used (_current_usage (acquire e rl).1.2) = used_today e rl + 1
       ∧ used_today (acquire e rl).1.1 (acquire e rl).1.2
         = used_today e rl + 1).
Proof.
  destruct (can_make_request_spec e rl) as [Hst _].
  unfold acquire.
  destruct (can_make_request e rl) as [rl1 allowed] eqn:Hc.
  simpl in Hst. subst rl1.
  destruct allowed; simpl.
  - split; [split; discriminate|]. split; [discriminate|].
    intros _. split; [done|].
    set (e' := if Qlt_bool _ _ then _ else e).
    assert (He' : date_today e' = date_today e).
    { subst e'. by destruct (Qlt_bool _ _). }
    set (rl2 := set_last_request_time (rollover e rl) (time_time e')).
    assert (Hcur : date (_current_usage rl2) = date_today e').
    { subst rl2; simpl. by rewrite rollover_date. }
    assert (Hu : used (_current_usage (record_request e' rl2))
                 = used_today e rl + 1).
    { rewrite record_request_used, used_today_current by done. done. }
    split; [done|].
    rewrite used_today_current; [done|].
    by rewrite record_request_date.
  - split; [done|]. split; [|discriminate].
    intros _. split; [done|]. split; [done|]. split.
    + unfold used_today. by rewrite rollover_idem.
    + apply rollover_current.
Qed.

Lemma percentage_over_100 (u l : Z) :
  0 < l -> l < u -> (100 < inject_Z u / inject_Z l * 100)%Q.
Proof.
  intros Hl Hu.
  assert (Hl' : (inject_Z 0 < inject_Z l)%Q) by (by rewrite <- Zlt_Qlt).
  assert (H1 : (1 < inject_Z u / inject_Z l)%Q).
  { apply Qlt_shift_div_l; [done|].
    rewrite Qmult_1_l. by rewrite <- Zlt_Qlt. }
  clear Hl'.
  change (1 * 100 < inject_Z u / inject_Z l * 100)%Q.
  apply Qmult_lt_compat_r; [reflexivity|done].
Qed.

(** C10.  [record_request()] has no test of the cap.  Called when today's
    [requests_used] is already at or above a positive [daily_limit], it
    returns (the model has no exceptional outcome for it) with the count
    one higher, so the count is above the limit, and [get_usage()] then
    reports a negative [remaining] and a [percentage] above 100. *)
Theorem record_request_no_cap (e : Env) (rl : t) :
  0 < daily_limit rl ->
  daily_limit rl <= used_today e rl ->
  used (_current_usage (record_request e rl)) = used_today e rl + 1
  ∧ daily_limit rl < used (_current_usage (record_request e rl))
  ∧ ∃ rep, (get_usage e (record_request e rl)).2 = Ok rep
           ∧ r_used rep = used_today e rl + 1
           ∧ r_remaining rep < 0
           ∧ (100 < r_percentage rep)%Q.
Proof.
  intros Hpos Hfull.
  assert (Hu : used_today e (record_request e rl) = used_today e rl + 1).
  { rewrite used_today_current by (by rewrite record_request_date).
    apply record_request_used. }
  split; [apply record_request_used|].
  split; [rewrite record_request_used; lia|].
  destruct (get_usage_spec e (record_request e rl))
    as (rep & Hr & Hru & _ & Hrem & Hper).
  { rewrite record_request_daily_limit. lia. }
  rewrite record_request_daily_limit in Hrem, Hper.
  exists rep. split; [done|]. split; [congruence|]. split; [lia|].
  rewrite Hper, Hu. apply percentage_over_100; lia.
Qed.

End QuotaClaims.

(** ** Batches *)

Section Batches.

Import BatchProcessor.

Variable fetch : string -> World -> World * result (option DataFrame).

Lemma batch_size_spec symbols w rep :
  (RateLimiter.get_usage (env w) (rate_limiter w)).2 = Ok rep ->
  calculate_optimal_batch_size symbols w
  = (set_rate_limiter w (RateLimiter.get_usage (env w) (rate_limiter w)).1,
     Ok (let m := Z.min (Z.of_nat (length symbols))
                        (RateLimiter.r_remaining rep) in
         if (RateLimiter.r_remaining rep >? 0) && (m =? 0) then 1 else m)).
Proof.
  intros Hrep. unfold calculate_optimal_batch_size.
  destruct (RateLimiter.get_usage (env w) (rate_limiter w)) as [rl r].
  simpl in Hrep. by subst r.
Qed.

(** While quota remains the batch size is [min(len(symbols), remaining)],
    raised to 1 when that is 0; with none left it is 0. *)
Lemma batch_size_with_quota symbols w rep :
  (RateLimiter.get_usage (env w) (rate_limiter w)).2 = Ok rep ->
  0 <= RateLimiter.r_remaining rep ->
  ∃ n, (calculate_optimal_batch_size symbols w).2 = Ok n
       ∧ (RateLimiter.r_remaining rep = 0 -> n = 0)
       ∧ (0 < RateLimiter.r_remaining rep -> symbols = [] -> n = 1)
       ∧ (0 < RateLimiter.r_remaining rep -> symbols ≠ [] ->
            n = Z.min (Z.of_nat (length symbols))
                      (RateLimiter.r_remaining rep)).
Proof.
  intros Hrep Hrem. rewrite (batch_size_spec _ _ _ Hrep). simpl.
  eexists; split; [done|].
  destruct symbols as [|s symbols]; simpl length.
  - split_and!; intros; try done.
    + replace (RateLimiter.r_remaining rep) with 0 by done. done.
    + rewrite Z.min_l by lia.
      destruct (Z.gtb_spec (RateLimiter.r_remaining rep) 0); [done|lia].
  - split_and!; intros; try done.
    + replace (RateLimiter.r_remaining rep) with 0 by done. done.
    + destruct (Z.eqb_spec
                  (Z.min (Z.of_nat (S (length symbols)))
                         (RateLimiter.r_remaining rep)) 0); [lia|].
      by rewrite andb_false_r.
Qed.

Lemma batch_size_exhausted symbols w rep :
  (RateLimiter.get_usage (env w) (rate_limiter w)).2 = Ok rep ->
  RateLimiter.r_remaining rep = 0 ->
  (calculate_optimal_batch_size symbols w).2 = Ok 0
  ∧ (fetch_multiple_symbols_with fetch symbols w).2
    = Raise QuotaExceededError
  ∧ api_calls (fetch_multiple_symbols_with fetch symbols w).1 = api_calls w
  ∧ cache (fetch_multiple_symbols_with fetch symbols w).1 = cache w.
Proof.
  intros Hrep Hrem. unfold fetch_multiple_symbols_with.
  rewrite (batch_size_spec _ _ _ Hrep), Hrem; simpl.
  rewrite Z.min_r by lia. done.
Qed.

Lemma process_data sym rest w w' d (results : gmap string DataFrame) :
  fetch sym w = (w', Ok (Some d)) ->
  process fetch (sym :: rest) w results
  = process fetch rest w' (<[sym := d]> results).
Proof. intros H. simpl. by rewrite H. Qed.

Lemma process_raise sym rest w w' ex (results : gmap string DataFrame) :
  fetch sym w = (w', Raise ex) ->
  process fetch (sym :: rest) w results = process fetch rest w' results.
Proof. intros H. simpl. rewrite H. by destruct ex. Qed.

Lemma outcomes_length symbols w :
  length (outcomes fetch symbols w) = length symbols.
Proof.
  revert w. induction symbols as [|sym rest IH]; intros w; [done|].
  simpl. destruct (fetch sym w) as [w' r]. simpl. by rewrite IH.
Qed.

(** The keys of the result are the keys it started with and the symbols
    for which some call of [fetch] returned data. *)
Lemma process_dom symbols w (results : gmap string DataFrame) s :
  s ∈ dom (process fetch symbols w results).2
  <-> s ∈ dom results
      ∨ ∃ i d, symbols !! i = Some s
               ∧ outcomes fetch symbols w !! i = Some (Ok (Some d)).
Proof.
  revert w results.
  induction symbols as [|sym rest IH]; intros w results.
  - simpl. split; [by left|]. intros [H|(i & d & H & _)]; [done|].
    by destruct i.
  - simpl. destruct (fetch sym w) as [w' r].
    assert (Hfail : (∀ d, r ≠ Ok (Some d)) ->
              s ∈ dom (process fetch rest w' results).2
              <-> s ∈ dom results
                  ∨ ∃ i d, (sym :: rest) !! i = Some s
                           ∧ (r :: outcomes fetch rest w') !! i
                             = Some (Ok (Some d))).
    { intros Hr. rewrite IH. split.
      - intros [H|(i & d & H1 & H2)]; [by left|].
        right. by exists (S i), d.
      - intros [H|(i & d & H1 & H2)]; [by left|].
        destruct i as [|i]; simpl in *.
        + exfalso. apply (Hr d). congruence.
        + right. by exists i, d. }
    destruct r as [[data|]|ex].
    + rewrite IH, dom_insert, elem_of_union, elem_of_singleton. split.
      * intros [[->|H]|(i & d & H1 & H2)].
        -- right. by exists 0%nat, data.
        -- by left.
        -- right. by exists (S i), d.
      * intros [H|(i & d & H1 & H2)]; [left; by right|].
        destruct i as [|i]; simpl in *.
        -- left; left. congruence.
        -- right. by exists i, d.
    + by apply Hfail.
    + destruct ex; by apply Hfail.
Qed.

End Batches.

(** C4, at the input on which the code departs from it.  The limiter was
    opened with limit 10 on a ledger that holds 12 requests for today, so
    [remaining] is -2.  For five symbols [calculate_optimal_batch_size]
    returns -2, not 0; [fetch_multiple_symbols] then does not raise
    [QuotaExceededError] up front: it walks [symbols[:-2]], the first three
    symbols, each of which fails on its own quota check, and returns an
    empty map. *)
Theorem batch_size_negative_quota :
  (BatchProcessor.calculate_optimal_batch_size
     Scenario.five_symbols Scenario.world_over).2 = Ok (-2)
  ∧ slice_to Scenario.five_symbols (-2) = ["AAPL"; "MSFT"; "GOOGL"]%string
  ∧ (BatchProcessor.fetch_multiple_symbols
       Scenario.provider Scenario.five_symbols "2024-01-01" "2024-01-05"
       Scenario.world_over).2 = Ok ∅.
Proof. by vm_compute. Qed.

(** C7.  In [fetch_multiple_symbols] no exception of a per-symbol fetch
    leaves the loop: once the batch size is not zero the call returns a
    map, every symbol of the batch has been fetched, and a symbol is a key
    of the map exactly when one of its fetches returned data, so a symbol
    whose fetches all failed is not in it.  For [A, INVALID, B] with quota
    for three requests, where the fetches of [A] and [B] return data and the
    fetch of [INVALID] raises, the keys of the map are exactly [A] and
    [B]. *)
Theorem batch_skips_failures
    (fetch : string -> World -> World * result (option DataFrame)) :
  (∀ symbols w n,
     (BatchProcessor.calculate_optimal_batch_size symbols w).2 = Ok n ->
     n ≠ 0 ->
     ∃ results,
       (BatchProcessor.fetch_multiple_symbols_with fetch symbols w).2
       = Ok results
       ∧ length (BatchProcessor.outcomes fetch (slice_to symbols n)
                   (BatchProcessor.calculate_optimal_batch_size symbols w).1)
         = length (slice_to symbols n)
       ∧ ∀ s, s ∈ dom results
              <-> ∃ i d,
                    slice_to symbols n !! i = Some s
                    ∧ BatchProcessor.outcomes fetch (slice_to symbols n)
                        (BatchProcessor.calculate_optimal_batch_size symbols w).1
                      !! i = Some (Ok (Some d)))
  ∧ (∀ A INVALID B w rep w1 w2 w3 dA dB ex,
       (RateLimiter.get_usage (env w) (rate_limiter w)).2 = Ok rep ->
       3 <= RateLimiter.r_remaining rep ->
       fetch A (BatchProcessor.calculate_optimal_batch_size
                  [A; INVALID; B] w).1 = (w1, Ok (Some dA)) ->
       fetch INVALID w1 = (w2, Raise ex) ->
       fetch B w2 = (w3, Ok (Some dB)) ->
       ∃ results,
         (BatchProcessor.fetch_multiple_symbols_with fetch [A; INVALID; B] w).2
         = Ok results
         ∧ dom results = {[A; B]}
         ∧ (INVALID ≠ A -> INVALID ≠ B -> results !! INVALID = None)).
Proof.
  split.
  - intros symbols w n Hn Hn0.
    unfold BatchProcessor.fetch_multiple_symbols_with.
    destruct (BatchProcessor.calculate_optimal_batch_size symbols w)
      as [w0 r] eqn:Hsize.
    simpl in Hn. subst r. simpl.
    destruct (Z.eqb_spec n 0) as [|_]; [done|].
    pose proof (process_dom fetch (slice_to symbols n) w0 ∅) as Hdom.
    destruct (BatchProcessor.process fetch (slice_to symbols n) w0 ∅)
      as [w' results].
    exists results. split; [done|]. split; [apply outcomes_length|].
    intros s. rewrite (Hdom s). simpl. rewrite dom_empty, elem_of_empty.
    tauto.
  - intros A INVALID B w rep w1 w2 w3 dA dB ex Hrep Hrem HA HI HB.
    unfold BatchProcessor.fetch_multiple_symbols_with.
    rewrite (batch_size_spec _ _ _ Hrep) in *. simpl fst in HA.
    change (Z.of_nat (length [A; INVALID; B])) with 3. cbv zeta.
    rewrite Z.min_l by lia. rewrite andb_false_r.
    change (3 =? 0) with false. cbn iota.
    change (slice_to [A; INVALID; B] 3) with [A; INVALID; B].
    rewrite (process_data _ _ _ _ _ _ _ HA), (process_raise _ _ _ _ _ _ _ HI),
      (process_data _ _ _ _ _ _ _ HB).
    exists (<[B:=dB]> (<[A:=dA]> ∅)). split; [done|]. split.
    + rewrite !dom_insert_L, dom_empty_L, (right_id_L ∅ (∪)).
      apply (comm_L (∪)).
    + intros HnA HnB. by rewrite !lookup_insert_ne.
Qed.

(** [A, INVALID, B] against the sample provider. *)
Lemma batch_skips_failures_witness :
  ∃ results,
    (BatchProcessor.fetch_multiple_symbols
       Scenario.provider ["AAPL"; "INVALID"; "MSFT"]%string
       "2024-01-01" "2024-01-05" Scenario.world_empty).2 = Ok results
    ∧ dom results = {["AAPL"; "MSFT"]}%string
    ∧ results !! "INVALID"%string = None.
Proof.
  pose proof (proj2 (batch_skips_failures
                (BatchProcessor._fetch_single_symbol
                   Scenario.provider "2024-01-01" "2024-01-05"))
              "AAPL" "INVALID" "MSFT" Scenario.world_empty)%string as H.
  edestruct H as (results & Hr & Hd & Hi);
    [reflexivity | vm_compute; discriminate
    | reflexivity | reflexivity | reflexivity |].
  exists results. split; [exact Hr|]. split; [exact Hd|]. by apply Hi.
Defined.


(** Three requests against a limit of three. *)
Lemma record_request_counts_witness :
  RateLimiter.fresh_day "2024-01-15" Scenario.limiter3
  ∧ (∃ rep,
       (RateLimiter.get_usage Scenario.now
          (RateLimiter.record_requests
             [Scenario.now; Scenario.now; Scenario.now] Scenario.limiter3)).2
       = Ok rep
       ∧ RateLimiter.r_used rep = 3)
  ∧ (RateLimiter.can_make_request Scenario.now
       (RateLimiter.record_requests
          [Scenario.now; Scenario.now; Scenario.now] Scenario.limiter3)).2
    = false.
Proof.
  assert (Hfresh : RateLimiter.fresh_day "2024-01-15" Scenario.limiter3)
    by (split; reflexivity).
  destruct (record_request_counts "2024-01-15"
              [Scenario.now; Scenario.now; Scenario.now]
              Scenario.now Scenario.limiter3) as [Hused Hcan];
    [exact Hfresh | repeat constructor | reflexivity |].
  split; [exact Hfresh|]. split.
  - apply Hused. vm_compute. discriminate.
  - apply not_true_is_false. intros Hc.
    apply Hcan in Hc. vm_compute in Hc. discriminate.
Defined.

(** [acquire] on a ledger that is at its limit of three, and on the fresh
    one. *)
Lemma acquire_quota_witness :
  (RateLimiter.acquire Scenario.now
     (RateLimiter.record_requests
        [Scenario.now; Scenario.now; Scenario.now] Scenario.limiter3)).1.2
  = RateLimiter.record_requests
      [Scenario.now; Scenario.now; Scenario.now] Scenario.limiter3
  ∧ RateLimiter.used
      (RateLimiter._current_usage
         (RateLimiter.acquire Scenario.now Scenario.limiter3).1.2) = 1.
Proof.
  split.
  - destruct (acquire_quota Scenario.now
                (RateLimiter.record_requests
                   [Scenario.now; Scenario.now; Scenario.now]
                   Scenario.limiter3)) as (_ & Herr & _).
    destruct Herr as (_ & _ & _ & Hsame); [reflexivity|].
    apply Hsame. reflexivity.
  - destruct (acquire_quota Scenario.now Scenario.limiter3) as (_ & _ & Hok).
    destruct Hok as (_ & Hused & _); [reflexivity|].
    exact Hused.
Defined.

(** A thirteenth request against a limit of ten. *)
Lemma record_request_no_cap_witness :
  0 < RateLimiter.daily_limit Scenario.limiter_over
  ∧ RateLimiter.daily_limit Scenario.limiter_over
    <= RateLimiter.used_today Scenario.now Scenario.limiter_over
  ∧ RateLimiter.used
      (RateLimiter._current_usage
         (RateLimiter.record_request Scenario.now Scenario.limiter_over))
    = 13.
Proof.
  assert (H1 : 0 < RateLimiter.daily_limit Scenario.limiter_over)
    by reflexivity.
  assert (H2 : RateLimiter.daily_limit Scenario.limiter_over
               <= RateLimiter.used_today Scenario.now Scenario.limiter_over)
    by (vm_compute; discriminate).
  split; [exact H1|]. split; [exact H2|].
  destruct (record_request_no_cap Scenario.now Scenario.limiter_over H1 H2)
    as [Hused _].
  exact Hused.
Defined.

(** ** Cache store *)

(** C5, as stated, fails on a frame without [volume]: [store] raises
    [ValueError], which is not [ValidationError] (nor a subclass of it). *)
Lemma store_missing_column_is_ValueError :
  df_empty Scenario.no_volume = false
  ∧ has_column Scenario.no_volume "volume" = false
  ∧ (DataCache.store Scenario.provider Scenario.now
       "AAPL" "2024-01-01" "2024-01-05"
       Scenario.no_volume DataCache.empty).2 = Raise ValueError
  ∧ (DataCache.store Scenario.provider Scenario.now
       "AAPL" "2024-01-01" "2024-01-05"
       Scenario.no_volume DataCache.empty).2 ≠ Raise ValidationError.
Proof. split_and!; [reflexivity..|discriminate]. Qed.

(** C5, amended.  [store] on an empty dataset returns without raising and
    leaves both tables as they were; on a dataset that is not empty and
    lacks one of [open], [high], [low], [close], [volume] it raises
    [ValueError] and leaves both tables as they were. *)
Theorem store_rejects (X : External) (e : Env) (sym start_ end_ : string)
    (data : DataFrame) (c : DataCache.t) :
  (df_empty data = true ->
     DataCache.store X e sym start_ end_ data c = (c, Ok tt))
  ∧ (df_empty data = false ->
     (∃ col, col ∈ ["open"; "high"; "low"; "close"; "volume"]%string
             ∧ has_column data col = false) ->
     DataCache.store X e sym start_ end_ data c = (c, Raise ValueError)).
Proof.
  unfold DataCache.store. split.
  - intros ->. done.
  - intros -> (col & Hcol & Hmiss).
    rewrite bool_decide_eq_true_2; [done|].
    intros Hnil.
    apply (filter_nil_not_elem_of _ _ col Hnil); done.
Qed.

Lemma store_rejects_witness :
  DataCache.store Scenario.provider Scenario.now
    "AAPL" "2024-01-01" "2024-01-05" Scenario.no_rows DataCache.empty
  = (DataCache.empty, Ok tt)
  ∧ DataCache.store Scenario.provider Scenario.now
      "AAPL" "2024-01-01" "2024-01-05" Scenario.no_volume DataCache.empty
    = (DataCache.empty, Raise ValueError).
Proof.
  split.
  - apply (proj1 (store_rejects Scenario.provider Scenario.now
                    "AAPL" "2024-01-01" "2024-01-05"
                    Scenario.no_rows DataCache.empty)).
    reflexivity.
  - apply (proj2 (store_rejects Scenario.provider Scenario.now
                    "AAPL" "2024-01-01" "2024-01-05"
                    Scenario.no_volume DataCache.empty)).
    + reflexivity.
    + exists "volume"%string. split; [|reflexivity].
      do 4 apply list_elem_of_further. apply list_elem_of_here.
Defined.

(** ** Validation *)

Section Validation.

Import DataValidator.

Lemma is_monotonic_increasing_spec (ts : list Z) :
  is_monotonic_increasing ts = true <-> nondecreasing ts.
Proof.
  induction ts as [|a rest IH].
  - split; [|done]. intros _ i x y Hx. by destruct i.
  - destruct rest as [|b rest].
    + split; [|done]. intros _ i x y _ Hy. by destruct i.
    + change (is_monotonic_increasing (a :: b :: rest))
        with ((a <=? b) && is_monotonic_increasing (b :: rest)).
      rewrite andb_true_iff, IH, Z.leb_le. split.
      * intros [Hab Hrest] i x y Hx Hy.
        destruct i as [|i]; simpl in Hx, Hy.
        -- congruence.
        -- by apply (Hrest i).
      * intros H. split.
        -- by apply (H 0%nat).
        -- intros i x y Hx Hy. by apply (H (S i)).
Qed.

Lemma chronological_order_ok X data d :
  _validate_chronological_order X data = Ok d ->
  is_monotonic_increasing (timestamps d) = true
  ∧ (is_datetime_index data = true -> d = data).
Proof.
  unfold _validate_chronological_order.
  destruct (is_datetime_index data).
  - simpl. destruct (is_monotonic_increasing (timestamps data)) eqn:Hm;
      simpl; [|done].
    intros [= <-]. done.
  - destruct (convert_index X data) as [d'|]; simpl; [|done].
    destruct (is_monotonic_increasing (timestamps d')) eqn:Hm; simpl; [|done].
    intros [= <-]. done.
Qed.

Lemma validate_ok X data d :
  validate X (Some data) = Ok d ->
  df_empty data = false
  ∧ _validate_columns data = Ok tt
  ∧ _validate_data_types data = Ok tt
  ∧ _validate_chronological_order X data = Ok d.
Proof.
  unfold validate.
  destruct (df_empty data); [done|].
  destruct (_validate_columns data) as [[]|]; simpl; [|done].
  destruct (_validate_data_types data) as [[]|]; simpl; [|done].
  destruct (_validate_chronological_order X data); simpl; [|done].
  intros [= <-]. done.
Qed.

(** Whatever goes wrong in [validate], the exception is
    [ValidationError]. *)
Lemma validate_raises X data ex :
  validate X data = Raise ex -> ex = ValidationError.
Proof.
  destruct data as [data|]; simpl; [|congruence].
  unfold _validate_columns, _validate_data_types,
    _validate_chronological_order.
  repeat (case_match; simpl; try congruence).
Qed.

End Validation.

(** C6, as stated, fails on two bars of the same date: the dates are not
    strictly increasing, and [validate] returns the frame. *)
Lemma validate_accepts_duplicate_dates :
  ¬ DataValidator.strictly_increasing
      (DataValidator.timestamps Scenario.duplicate_dates)
  ∧ DataValidator.validate Scenario.provider (Some Scenario.duplicate_dates)
    = Ok Scenario.duplicate_dates.
Proof.
  split; [|reflexivity].
  intros H. specialize (H 0%nat _ _ eq_refl eq_refl). lia.
Qed.

(** C6, amended.  [validate] raises [ValidationError] unless the dates are
    in chronological order, where equal neighbours count as in order: a
    frame it returns has non-decreasing dates; a frame with a
    [DatetimeIndex] whose dates are out of order is refused with
    [ValidationError]; such a frame that passes the other checks and has
    non-decreasing dates, repeated ones included, is returned as it is.
    When validation of the fetched frame raises, neither fetch path reaches
    [cache.store]: the cache is as before and the fetch fails. *)
Theorem validate_chronological (X : External) (data : DataFrame) :
  (∀ d, DataValidator.validate X (Some data) = Ok d ->
        DataValidator.nondecreasing (DataValidator.timestamps d))
  ∧ (is_datetime_index data = true ->
     ¬ DataValidator.nondecreasing (DataValidator.timestamps data) ->
     DataValidator.validate X (Some data) = Raise ValidationError)
  ∧ (is_datetime_index data = true ->
     df_empty data = false ->
     DataValidator._validate_columns data = Ok tt ->
     DataValidator._validate_data_types data = Ok tt ->
     DataValidator.nondecreasing (DataValidator.timestamps data) ->
     DataValidator.validate X (Some data) = Ok data)
  ∧ (∀ sym start_ end_ w ex,
       time_series X sym start_ end_ = Ok (Some data) ->
       DataValidator.validate X (Some data) = Raise ex ->
       BatchProcessor.fetch_from_api X sym start_ end_ w
       = (set_rate_limiter (log_api_call w sym start_ end_)
            (RateLimiter.record_request (env w) (rate_limiter w)),
          Raise ValidationError)
       ∧ cache (BatchProcessor.fetch_from_api X sym start_ end_ w).1 = cache w
       ∧ cache (DataFetcher.fetch_from_api X sym start_ end_ w).1 = cache w
       ∧ is_ok (DataFetcher.fetch_from_api X sym start_ end_ w).2 = false).
Proof.
  split_and!.
  - intros d Hd. apply validate_ok in Hd as (_ & _ & _ & Hc).
    apply chronological_order_ok in Hc as [Hm _].
    by apply is_monotonic_increasing_spec.
  - intros Hidx Hbad.
    destruct (DataValidator.validate X (Some data)) as [d|ex] eqn:Hv.
    + exfalso. apply Hbad.
      apply validate_ok in Hv as (_ & _ & _ & Hc).
      apply chronological_order_ok in Hc as [Hm Hsame].
      rewrite <- (Hsame Hidx). by apply is_monotonic_increasing_spec.
    + by rewrite (validate_raises _ _ _ Hv).
  - intros Hidx Hne Hcols Htypes Hord.
    apply is_monotonic_increasing_spec in Hord.
    unfold DataValidator.validate,
      DataValidator._validate_chronological_order.
    rewrite Hne, Hcols, Htypes, Hidx. simpl. by rewrite Hord.
  - intros sym start_ end_ w ex Hts Hv.
    pose proof (validate_raises _ _ _ Hv) as ->.
    unfold BatchProcessor.fetch_from_api, DataFetcher.fetch_from_api,
      DataFetcher._validate_data.
    rewrite Hts, Hv. split_and!; [done|done| |].
    + by destruct (df_empty data).
    + by destruct (df_empty data).
Qed.

Lemma validate_chronological_witness :
  DataValidator.validate Scenario.provider (Some Scenario.out_of_order)
  = Raise ValidationError
  ∧ DataValidator.validate Scenario.provider (Some Scenario.duplicate_dates)
    = Ok Scenario.duplicate_dates.
Proof.
  split.
  - apply (validate_chronological Scenario.provider Scenario.out_of_order);
      [reflexivity|].
    intros H. specialize (H 0%nat _ _ eq_refl eq_refl).
    vm_compute in H. by apply H.
  - apply (validate_chronological Scenario.provider Scenario.duplicate_dates);
      [reflexivity..|].
    intros i a b Ha Hb. destruct i as [|[|i]]; [|done..].
    injection Ha as <-. injection Hb as <-. vm_compute. discriminate.
Defined.

(** ** Freshness *)

(** C8.  Without a metadata row for [(symbol, start, end)]
    [get_cache_age] is [float('inf')] and [is_data_fresh] is false, for
    every threshold passed and for the adaptive one.  With
    [threshold_minutes=None] the age is compared against 1440 minutes when
    the current moment at the exchange is on a weekend (Saturday or
    Sunday), against 5 minutes when the market is open (a weekday, 09:30 to
    16:00 at the exchange), and against 240 minutes otherwise. *)
Theorem freshness_threshold (e : Env) (sym start_ end_ : string)
    (c : DataCache.t) :
  (DataCache.cache_metadata c !! DataCache.generate_cache_key sym start_ end_
   = None ->
     FreshnessManager.get_cache_age e sym start_ end_ c
     = FreshnessManager.Infinity
     ∧ ∀ th, FreshnessManager.is_data_fresh e sym start_ end_ th c = false)
  ∧ (FreshnessManager.is_weekend e (Some (datetime_now_exchange e)) = true ->
       FreshnessManager.is_data_fresh e sym start_ end_ None c
       = FreshnessManager.minutes_le
           (FreshnessManager.get_cache_age e sym start_ end_ c) 1440)
  ∧ (FreshnessManager.is_weekend e (Some (datetime_now_exchange e)) = false ->
     FreshnessManager.is_market_open e (Some (datetime_now_exchange e)) = true ->
       FreshnessManager.is_data_fresh e sym start_ end_ None c
       = FreshnessManager.minutes_le
           (FreshnessManager.get_cache_age e sym start_ end_ c) 5)
  ∧ (FreshnessManager.is_weekend e (Some (datetime_now_exchange e)) = false ->
     FreshnessManager.is_market_open e (Some (datetime_now_exchange e)) = false ->
       FreshnessManager.is_data_fresh e sym start_ end_ None c
       = FreshnessManager.minutes_le
           (FreshnessManager.get_cache_age e sym start_ end_ c) 240)
  ∧ (FreshnessManager.is_weekend e (Some (datetime_now_exchange e)) = true
     <-> 5 <= dt_weekday (datetime_now_exchange e))
  ∧ (FreshnessManager.is_market_open e (Some (datetime_now_exchange e)) = true
     <-> dt_weekday (datetime_now_exchange e) < 5
         ∧ time_micros (mk_time 9 30 0 0)
           <= time_micros (dt_time (datetime_now_exchange e))
           <= time_micros (mk_time 16 0 0 0)).
Proof.
  split_and!.
  - intros Hnone.
    assert (Hage : FreshnessManager.get_cache_age e sym start_ end_ c
                   = FreshnessManager.Infinity).
    { unfold FreshnessManager.get_cache_age, DataCache.get_metadata.
      by rewrite Hnone. }
    split; [done|]. intros th.
    unfold FreshnessManager.is_data_fresh. by rewrite Hage.
  - intros Hw. unfold FreshnessManager.is_data_fresh,
      FreshnessManager._get_adaptive_threshold. by rewrite Hw.
  - intros Hw Ho. unfold FreshnessManager.is_data_fresh,
      FreshnessManager._get_adaptive_threshold. by rewrite Hw, Ho.
  - intros Hw Ho. unfold FreshnessManager.is_data_fresh,
      FreshnessManager._get_adaptive_threshold. by rewrite Hw, Ho.
  - unfold FreshnessManager.is_weekend; simpl.
    rewrite Z.geb_le. done.
  - unfold FreshnessManager.is_market_open, FreshnessManager.is_weekend,
      time_leb; simpl.
    destruct (Z.geb_spec (dt_weekday (datetime_now_exchange e)) 5).
    + split; [done|]. lia.
    + rewrite andb_true_iff, !Z.leb_le.
      change (time_micros FreshnessManager.market_open_time)
        with (time_micros (mk_time 9 30 0 0)).
      change (time_micros FreshnessManager.market_close_time)
        with (time_micros (mk_time 16 0 0 0)).
      lia.
Qed.

(** Monday 10:00 at the exchange, nothing cached. *)
Lemma freshness_threshold_witness :
  FreshnessManager.is_data_fresh Scenario.now "AAPL" "2024-01-01"
    "2024-01-05" (Some 1000000) DataCache.empty = false
  ∧ FreshnessManager.is_data_fresh Scenario.now "AAPL" "2024-01-01"
      "2024-01-05" None Scenario.cache_day_old
    = FreshnessManager.minutes_le
        (FreshnessManager.get_cache_age Scenario.now "AAPL" "2024-01-01"
           "2024-01-05" Scenario.cache_day_old) 5.
Proof.
  split.
  - destruct (freshness_threshold Scenario.now "AAPL" "2024-01-01"
                "2024-01-05" DataCache.empty) as (Hnone & _).
    destruct Hnone as [_ Hfalse]; [reflexivity|].
    apply Hfalse.
  - destruct (freshness_threshold Scenario.now "AAPL" "2024-01-01"
                "2024-01-05" Scenario.cache_day_old) as (_ & _ & Hopen & _).
    apply Hopen; reflexivity.
Defined.

(** ** Error recovery *)

(** C9.  Over the attempts 1 to 5 [calculate_backoff_time] is strictly
    increasing, is at least one second (so in particular for the first
    attempt) and is at most 60 seconds. *)
Theorem backoff_increasing_capped (a b : Z) :
  1 <= a -> a < b -> b <= 5 ->
  (ErrorRecovery.calculate_backoff_time a
   < ErrorRecovery.calculate_backoff_time b)%Q
  ∧ (1 <= ErrorRecovery.calculate_backoff_time a)%Q
  ∧ (1 <= ErrorRecovery.calculate_backoff_time b)%Q
  ∧ (ErrorRecovery.calculate_backoff_time a <= 60)%Q
  ∧ (ErrorRecovery.calculate_backoff_time b <= 60)%Q.
Proof.
  intros Ha Hab Hb.
  assert (Hcase : (a = 1 ∨ a = 2 ∨ a = 3 ∨ a = 4)
                  ∧ (b = 2 ∨ b = 3 ∨ b = 4 ∨ b = 5)) by lia.
  unfold ErrorRecovery.calculate_backoff_time.
  rewrite <- !Zlt_Qlt.
  change 1%Q with (inject_Z 1). change 60%Q with (inject_Z 60).
  rewrite <- !Zle_Qle.
  destruct Hcase as [[ -> | [ -> | [ -> | -> ]]] [ -> | [ -> | [ -> | -> ]]]];
    try lia; vm_compute; split_and!; congruence.
Qed.

Lemma backoff_increasing_capped_witness :
  (ErrorRecovery.calculate_backoff_time 1
   < ErrorRecovery.calculate_backoff_time 2)%Q
  ∧ (1 <= ErrorRecovery.calculate_backoff_time 1)%Q
  ∧ (ErrorRecovery.calculate_backoff_time 5 <= 60)%Q.
Proof.
  destruct (backoff_increasing_capped 1 2) as (H12 & H1 & _);
    [lia | lia | lia |].
  destruct (backoff_increasing_capped 4 5) as (_ & _ & _ & _ & H5);
    [lia | lia | lia |].
  split; [exact H12|]. split; [exact H1|exact H5].
Defined.

(** ** Single-symbol fetch *)

(** A cache hit is what both fetch paths return, with no provider call and
    no change to the limiter; freshness plays no part in it. *)
Lemma cached_data_is_returned X sym start_ end_ w d :
  (DataCache.get X (env w) sym start_ end_ (cache w)).2 = Some d ->
  (DataFetcher.fetch_historical_data X sym start_ end_ w).2 = Ok d
  ∧ rate_limiter (DataFetcher.fetch_historical_data X sym start_ end_ w).1
    = rate_limiter w
  ∧ api_calls (DataFetcher.fetch_historical_data X sym start_ end_ w).1
    = api_calls w
  ∧ (BatchProcessor._fetch_single_symbol X start_ end_ sym w).2 = Ok (Some d)
  ∧ rate_limiter (BatchProcessor._fetch_single_symbol X start_ end_ sym w).1
    = rate_limiter w
  ∧ api_calls (BatchProcessor._fetch_single_symbol X start_ end_ sym w).1
    = api_calls w.
Proof.
  unfold DataFetcher.fetch_historical_data,
    BatchProcessor._fetch_single_symbol.
  destruct (DataCache.get X (env w) sym start_ end_ (cache w)) as [c cached].
  simpl. intros ->. done.
Qed.

(** Without a metadata row for the exact key there is no cache hit. *)
Lemma get_miss_without_metadata X e sym start_ end_ c :
  DataCache.cache_metadata c !! DataCache.generate_cache_key sym start_ end_
  = None ->
  DataCache.get X e sym start_ end_ c = (c, None).
Proof. intros H. unfold DataCache.get. by rewrite H. Qed.

(** On a cache miss the fetch either stops at the quota check, before any
    provider call, or calls the provider exactly once. *)
Lemma cache_miss_is_not_free X sym start_ end_ w :
  (DataCache.get X (env w) sym start_ end_ (cache w)).2 = None ->
  ((DataFetcher.fetch_historical_data X sym start_ end_ w).2
   = Raise QuotaExceededError
   ∧ api_calls (DataFetcher.fetch_historical_data X sym start_ end_ w).1
     = api_calls w)
  ∨ api_calls (DataFetcher.fetch_historical_data X sym start_ end_ w).1
    = api_calls w ++ [(sym, start_, end_)].
Proof.
  unfold DataFetcher.fetch_historical_data.
  destruct (DataCache.get X (env w) sym start_ end_ (cache w)) as [c cached].
  simpl. intros ->.
  destruct (RateLimiter.can_make_request _ _) as [rl allowed].
  destruct allowed; simpl; [right|by left].
  unfold DataFetcher.fetch_from_api.
  destruct (time_series X sym start_ end_) as [data|ex]; simpl; [|done].
  destruct (DataFetcher._validate_data X data) as [v|ex]; simpl; [|done].
  destruct (DataCache.store _ _ _ _ _ _ _) as [c' r].
  by destruct r.
Qed.

(** C1, at the input on which the code departs from it.  The range
    [("AAPL", "2024-01-01", "2024-01-05")] was stored 25 hours (1500
    minutes) ago; it is Monday 10:00 at the exchange.  The freshness
    manager calls the range not fresh, under the adaptive threshold and
    under the largest default threshold of 1440 minutes alike.  Both fetch
    paths return the cached frame all the same, without a provider call
    and with the limiter untouched. *)
Theorem stale_cache_is_served :
  FreshnessManager.is_data_fresh Scenario.now "AAPL" "2024-01-01"
    "2024-01-05" None Scenario.cache_day_old = false
  ∧ FreshnessManager.is_data_fresh Scenario.now "AAPL" "2024-01-01"
      "2024-01-05" (Some 1440) Scenario.cache_day_old = false
  ∧ (DataFetcher.fetch_historical_data Scenario.provider
       "AAPL" "2024-01-01" "2024-01-05" Scenario.world_stale).2
    = Ok Scenario.sample_data
  ∧ rate_limiter (DataFetcher.fetch_historical_data Scenario.provider
       "AAPL" "2024-01-01" "2024-01-05" Scenario.world_stale).1
    = rate_limiter Scenario.world_stale
  ∧ api_calls (DataFetcher.fetch_historical_data Scenario.provider
       "AAPL" "2024-01-01" "2024-01-05" Scenario.world_stale).1 = []
  ∧ (BatchProcessor._fetch_single_symbol Scenario.provider
       "2024-01-01" "2024-01-05" "AAPL" Scenario.world_stale).2
    = Ok (Some Scenario.sample_data)
  ∧ rate_limiter (BatchProcessor._fetch_single_symbol Scenario.provider
       "2024-01-01" "2024-01-05" "AAPL" Scenario.world_stale).1
    = rate_limiter Scenario.world_stale
  ∧ api_calls (BatchProcessor._fetch_single_symbol Scenario.provider
       "2024-01-01" "2024-01-05" "AAPL" Scenario.world_stale).1 = [].
Proof.
  assert (Hget : (DataCache.get Scenario.provider (env Scenario.world_stale)
                    "AAPL" "2024-01-01" "2024-01-05"
                    (cache Scenario.world_stale)).2
                 = Some Scenario.sample_data) by reflexivity.
  destruct (cached_data_is_returned _ _ _ _ _ _ Hget)
    as (H1 & H2 & H3 & H4 & H5 & H6).
  split_and!; [reflexivity | reflexivity | done..].
Qed.


(** * Further properties of the code *)

(** ** Quota governor: persistence, rollover, spacing *)

Section QuotaGovernorMore.

Import RateLimiter.

Lemma rollover_min_interval e rl :
  min_interval (rollover e rl) = min_interval rl.
Proof. unfold rollover. by case_bool_decide. Qed.

Lemma record_request_current_usage e rl :
  _current_usage (record_request e rl)
  = {| date := date_today e;
       used := used_today e rl + 1;
       last_request_time := time_time e |}.
Proof.
  unfold record_request, used_today; simpl. by rewrite rollover_date.
Qed.

Lemma Qlt_bool_true x y : Qlt_bool x y = true -> (x < y)%Q.
Proof.
  unfold Qlt_bool. intros H. apply negb_true_iff in H.
  apply Qnot_le_lt. intros Hle. apply Qle_bool_iff in Hle. congruence.
Qed.

Lemma Qlt_bool_false x y : Qlt_bool x y = false -> (y <= x)%Q.
Proof.
  unfold Qlt_bool. intros H. apply negb_false_iff in H.
  by apply Qle_bool_iff.
Qed.

(** The two ways through [acquire]. *)
Lemma acquire_cases e rl :
  ((can_make_request e rl).2 = false
   ∧ acquire e rl = (e, rollover e rl, Raise QuotaExceededError))
  ∨ ((can_make_request e rl).2 = true
     ∧ ∃ e', date_today e' = date_today e
             ∧ (time_time e <= time_time e')%Q
             ∧ (min_interval rl <= time_time e' - _last_request_time rl)%Q
             ∧ acquire e rl
               = (e',
                  record_request e'
                    (set_last_request_time (rollover e rl) (time_time e')),
                  Ok tt)).
Proof.
  destruct (can_make_request_spec e rl) as [Hst _].
  unfold acquire.
  destruct (can_make_request e rl) as [rl1 allowed]. simpl in Hst. subst rl1.
  destruct allowed; simpl; [right|by left].
  split; [done|].
  rewrite rollover_min_interval, rollover_last.
  destruct (Qlt_bool (time_time e - _last_request_time rl) (min_interval rl))
    eqn:Hlt.
  - apply Qlt_bool_true in Hlt.
    eexists. split_and!; [| | |reflexivity]; simpl; [done|lra|lra].
  - apply Qlt_bool_false in Hlt.
    exists e. split_and!; [done|lra|lra|done].
Qed.

(** X1.  Usage survives a restart: a limiter opened on the table that
    another limiter left behind, on the same day, holds the same current
    usage (date, count and time of the last request), whatever limit and
    interval it is opened with. *)
Theorem reopen_restores_usage (limit limit' : Z) (interval interval' : Q)
    (tb : gmap string (Z * Q)) (e0 e' : Env) (es : list Env) :
  Forall (fun e => date_today e = date_today e0) es ->
  date_today e' = date_today e0 ->
  _current_usage
    (init limit' interval'
       (quota_tracking (record_requests es (init limit interval tb e0))) e')
  = _current_usage (record_requests es (init limit interval tb e0)).
Proof.
  intros Hes He'.
  destruct es as [|e es _] using rev_ind.
  - simpl. unfold _load_daily_usage. by rewrite He'.
  - apply Forall_app in Hes as [_ He]. apply Forall_inv in He.
    rewrite record_requests_snoc.
    change (_current_usage (init ?l ?i ?T ?x)) with (_load_daily_usage x T).
    unfold _load_daily_usage.
    rewrite record_request_current_usage.
    rewrite He', <- He, record_request_saved. done.
Qed.

(** X2.  On the first access of a new day the count starts again from
    zero: a request is allowed exactly when the limit is positive and the
    first one recorded makes the count 1.  The rows of other days stay in
    the table; today's row is overwritten with zero, whatever it held. *)
Theorem rollover_starts_from_zero (e : Env) (rl : t) :
  date (_current_usage rl) ≠ date_today e ->
  used_today e rl = 0
  ∧ ((can_make_request e rl).2 = true <-> 0 < daily_limit rl)
  ∧ used (_current_usage (record_request e rl)) = 1
  ∧ quota_tracking (can_make_request e rl).1 !! date_today e = Some (0, 0%Q)
  ∧ ∀ d, d ≠ date_today e ->
         quota_tracking (can_make_request e rl).1 !! d = quota_tracking rl !! d.
Proof.
  intros Hstale.
  assert (Hu : used_today e rl = 0).
  { unfold used_today. by rewrite rollover_stale. }
  destruct (can_make_request_spec e rl) as [Hst Hc].
  rewrite Hst, rollover_stale by done.
  split_and!.
  - done.
  - by rewrite Hc, Hu.
  - by rewrite record_request_used, Hu.
  - unfold _reset_daily_quota, _save_daily_usage; simpl.
    apply lookup_insert_eq.
  - intros d Hd. unfold _reset_daily_quota, _save_daily_usage; simpl.
    by rewrite lookup_insert_ne.
Qed.

(** X3.  A call of [acquire] that returns has waited until at least
    [min_interval] seconds separate the clock from the limiter's
    [_last_request_time]; it stamps the limiter and the recorded request
    with that clock reading. *)
Theorem acquire_spacing (e : Env) (rl : t) :
  (acquire e rl).2 = Ok tt ->
  (min_interval rl
   <= time_time (acquire e rl).1.1 - _last_request_time rl)%Q
  ∧ (time_time e <= time_time (acquire e rl).1.1)%Q
  ∧ _last_request_time (acquire e rl).1.2 = time_time (acquire e rl).1.1
  ∧ last_request_time (_current_usage (acquire e rl).1.2)
    = time_time (acquire e rl).1.1.
Proof.
  destruct (acquire_cases e rl) as [[_ Hacq]|(_ & e' & _ & Ht & Hgap & Hacq)];
    rewrite Hacq; simpl; [done|].
  intros _. split_and!; try done.
  unfold record_request, _save_daily_usage; simpl.
  apply rollover_last.
Qed.

Lemma acquire_step e rl :
  date (_current_usage rl) = date_today e ->
  date (_current_usage (acquire e rl).1.2) = date_today e
  ∧ daily_limit (acquire e rl).1.2 = daily_limit rl
  ∧ used (_current_usage (acquire e rl).1.2)
    = if used (_current_usage rl) <? daily_limit rl
      then used (_current_usage rl) + 1
      else used (_current_usage rl).
Proof.
  intros Hd.
  destruct (can_make_request_spec e rl) as [_ Hc].
  rewrite used_today_current in Hc by done.
  destruct (acquire_cases e rl)
    as [[Hno Hacq]|(Hyes & e' & He' & _ & _ & Hacq)]; rewrite Hacq;
    cbn [fst snd].
  - rewrite rollover_current by done.
    destruct (Z.ltb_spec (used (_current_usage rl)) (daily_limit rl)) as [H|H].
    + apply Hc in H. congruence.
    + done.
  - rewrite record_request_date, record_request_daily_limit,
      record_request_used.
    cbn [daily_limit set_last_request_time]. rewrite rollover_daily_limit.
    apply Hc in Hyes.
    destruct (Z.ltb_spec (used (_current_usage rl)) (daily_limit rl)); [|lia].
    split_and!; [done|done|].
    rewrite used_today_current; cbn [_current_usage set_last_request_time].
    + by rewrite rollover_current.
    + rewrite rollover_date. done.
Qed.

Lemma acquires_snoc es e rl :
  acquires (es ++ [e]) rl = (acquire e (acquires es rl)).1.2.
Proof. unfold acquires. by rewrite fold_left_app. Qed.

(** X4.  [acquire] never overshoots the cap: [n] calls on a fresh ledger
    day, failed ones included, leave [requests_used] at [min(n,
    daily_limit)] for a limit that is not negative. *)
Theorem acquires_stop_at_limit (d : string) (es : list Env) (rl : t) :
  fresh_day d rl ->
  Forall (fun e => date_today e = d) es ->
  0 <= daily_limit rl ->
  used (_current_usage (acquires es rl))
  = Z.min (Z.of_nat (length es)) (daily_limit rl)
  ∧ date (_current_usage (acquires es rl)) = d
  ∧ daily_limit (acquires es rl) = daily_limit rl.
Proof.
  intros [Hd Hu] Hes Hlim.
  induction es as [|e es IH] using rev_ind.
  - simpl. split_and!; [lia|done|done].
  - apply Forall_app in Hes as [Hes He]. apply Forall_inv in He.
    destruct (IH Hes) as (IHu & IHd & IHl).
    rewrite acquires_snoc, length_app, Nat2Z.inj_add.
    change (Z.of_nat (length [e])) with 1.
    destruct (acquire_step e (acquires es rl)) as (Hd' & Hl' & Hu');
      [congruence|].
    split_and!; [|congruence|congruence].
    rewrite Hu', IHu, IHl.
    destruct (Z.ltb_spec (Z.min (Z.of_nat (length es)) (daily_limit rl))
                         (daily_limit rl)); lia.
Qed.

(** X5.  [reset_quota] is gated: without [force=True] it raises
    [ValueError], and with the environment variable [ENVIRONMENT] set to
    [production] in any letter case it raises [RuntimeError]; in both cases
    the limiter is left as it was.  Otherwise the count is zero afterwards,
    today's row is gone from the table, and a limiter opened on that table
    the same day starts from zero. *)
Theorem reset_quota_gate (force : bool) (environment : option string)
    (e : Env) (rl : t) :
  (force = false ->
     reset_quota force environment e rl = (rl, ResetValueError))
  ∧ (force = true ->
     lower (default ""%string environment) = "production"%string ->
     reset_quota force environment e rl = (rl, ResetRuntimeError))
  ∧ (force = true ->
     lower (default ""%string environment) ≠ "production"%string ->
     (reset_quota force environment e rl).2 = ResetDone
     ∧ used_today e (reset_quota force environment e rl).1 = 0
     ∧ quota_tracking (reset_quota force environment e rl).1 !! date_today e
       = None
     ∧ ∀ limit interval e',
         date_today e' = date_today e ->
         used (_current_usage
                 (init limit interval
                    (quota_tracking (reset_quota force environment e rl).1)
                    e')) = 0).
Proof.
  unfold reset_quota. split_and!.
  - by intros ->.
  - intros -> Hp. simpl. by rewrite bool_decide_eq_true_2.
  - intros -> Hp. simpl. rewrite bool_decide_eq_false_2 by done.
    split_and!.
    + done.
    + by rewrite used_today_current.
    + apply lookup_delete_eq.
    + intros limit interval e' He'.
      change (_current_usage (init ?l ?i ?T ?x)) with (_load_daily_usage x T).
      unfold _load_daily_usage. rewrite He'.
      cbn [fst quota_tracking set_table]. by rewrite lookup_delete_eq.
Qed.



End QuotaGovernorMore.

(** ** Cache store: keys, metadata, reads *)

Section CacheStore.

Import DataCache.

Lemma same_key_spec a b : same_key a b = true <-> stock_key a = stock_key b.
Proof.
  unfold same_key, stock_key.
  rewrite andb_true_iff, !bool_decide_eq_true. split.
  - intros [-> ->]. done.
  - intros [= -> ->]. done.
Qed.

Lemma upsert_keys r tb :
  map stock_key (upsert r tb)
  = if bool_decide (stock_key r ∈ map stock_key tb)
    then map stock_key tb
    else map stock_key tb ++ [stock_key r].
Proof.
  induction tb as [|x tb IH]; cbn [upsert map].
  - rewrite bool_decide_eq_false_2; [done|]. apply not_elem_of_nil.
  - destruct (same_key x r) eqn:Hk.
    + apply same_key_spec in Hk. cbn [map].
      rewrite bool_decide_eq_true_2; [done|].
      rewrite <- Hk. apply list_elem_of_here.
    + assert (Hne : stock_key x ≠ stock_key r).
      { intros Heq. apply same_key_spec in Heq. congruence. }
      cbn [map app]. rewrite IH.
      destruct (bool_decide (stock_key r ∈ map stock_key tb)) eqn:Hin.
      * apply bool_decide_eq_true in Hin.
        rewrite bool_decide_eq_true_2; [done|]. by apply list_elem_of_further.
      * apply bool_decide_eq_false in Hin.
        rewrite bool_decide_eq_false_2; [done|].
        intros [Heq|Hin']%elem_of_cons; [by apply Hne|done].
Qed.

Lemma upsert_NoDup r tb :
  NoDup (map stock_key tb) -> NoDup (map stock_key (upsert r tb)).
Proof.
  intros Hnd. rewrite upsert_keys. case_bool_decide as Hin; [done|].
  apply NoDup_app. split_and!; [done| |apply NoDup_singleton].
  intros k Hk Hk'. apply list_elem_of_singleton in Hk'. by subst k.
Qed.

Lemma upsert_keeps_keys r tb k :
  k ∈ map stock_key tb -> k ∈ map stock_key (upsert r tb).
Proof.
  intros Hk. rewrite upsert_keys. case_bool_decide; [done|].
  apply elem_of_app. by left.
Qed.

Lemma store_row_inv e sym cols r tb n tb' n' :
  store_row e sym cols r (tb, n) = Ok (tb', n') ->
  n' = n + 1 ∧ ∃ row, tb' = upsert row tb.
Proof.
  unfold store_row. destruct r as [date_index row].
  destruct (to_float (row_get cols row "open")); simpl; [|done].
  destruct (to_float (row_get cols row "high")); simpl; [|done].
  destruct (to_float (row_get cols row "low")); simpl; [|done].
  destruct (to_float (row_get cols row "close")); simpl; [|done].
  destruct (to_int (row_get cols row "volume")); simpl; [|done].
  intros [= <- <-]. split; [done|]. by eexists.
Qed.

Lemma store_rows_inv e sym cols rs tb n tb' n' :
  store_rows e sym cols rs (tb, n) = Ok (tb', n') ->
  n' = n + Z.of_nat (length rs)
  ∧ (NoDup (map stock_key tb) -> NoDup (map stock_key tb'))
  ∧ (∀ k, k ∈ map stock_key tb -> k ∈ map stock_key tb').
Proof.
  revert tb n. induction rs as [|r rs IH]; intros tb n; simpl.
  - intros [= <- <-]. split_and!; [lia|done|done].
  - destruct (store_row e sym cols r (tb, n)) as [[tb1 n1]|ex] eqn:Hrow;
      simpl; [|done].
    intros Hrest. apply store_row_inv in Hrow as [-> [row ->]].
    apply IH in Hrest as (-> & Hnd & Hkeys).
    split_and!.
    + lia.
    + intros H. by apply Hnd, upsert_NoDup.
    + intros k Hk. by apply Hkeys, upsert_keeps_keys.
Qed.

(** What a call of [store] that returns has done. *)
Lemma store_ok_inv X e sym start_ end_ data c :
  (store X e sym start_ end_ data c).2 = Ok tt ->
  (df_empty data = true ∧ (store X e sym start_ end_ data c).1 = c)
  ∨ (df_empty data = false
     ∧ ∃ tb,
         store_rows e sym (columns data) (rows data) (stock_data c, 0)
         = Ok (tb, df_len data)
         ∧ (store X e sym start_ end_ data c).1
           = {| stock_data := tb;
                cache_metadata :=
                  upsert_metadata e (generate_cache_key sym start_ end_)
                    sym start_ end_ (df_len data) (pickle_size X data)
                    (cache_metadata c) |}).
Proof.
  unfold store. destruct (df_empty data); [by left|]. right.
  revert H. case_bool_decide; simpl; [done|].
  destruct (store_rows _ _ _ _ _) as [[tb n]|ex] eqn:Hrows; simpl; [|done].
  intros _. split; [done|].
  pose proof (store_rows_inv _ _ _ _ _ _ _ _ Hrows) as [-> _].
  exists tb. split; reflexivity.
Qed.

(** A call of [store] that raises has written nothing. *)
Lemma store_raise_inv X e sym start_ end_ data c ex :
  (store X e sym start_ end_ data c).2 = Raise ex ->
  (store X e sym start_ end_ data c).1 = c.
Proof.
  unfold store. destruct (df_empty data); [done|].
  case_bool_decide; simpl; [done|].
  by destruct (store_rows _ _ _ _ _) as [[tb n]|ex'].
Qed.


Lemma store_metadata_other X e sym start_ end_ data c k :
  k ≠ generate_cache_key sym start_ end_ ->
  cache_metadata (store X e sym start_ end_ data c).1 !! k
  = cache_metadata c !! k.
Proof.
  intros Hk.
  destruct (store X e sym start_ end_ data c).2 as [[]|ex] eqn:Hr.
  - destruct (store_ok_inv _ _ _ _ _ _ _ Hr)
      as [[_ ->]|(_ & tb & _ & ->)]; [done|].
    simpl. unfold upsert_metadata.
    destruct (cache_metadata c !! generate_cache_key sym start_ end_);
      by rewrite lookup_insert_ne.
  - by rewrite (store_raise_inv _ _ _ _ _ _ _ _ Hr).
Qed.

(** X8.  Storing a range again does not make it younger: the metadata row
    keeps its [created_at], so the age the freshness manager computes is
    the same before and after; only the record count, the size and
    [last_accessed] are brought up to date. *)
Theorem restore_keeps_age (X : External) (e e' : Env)
    (sym start_ end_ : string) (data : DataFrame) (c : t)
    (m : CacheMetadata) :
  cache_metadata c !! generate_cache_key sym start_ end_ = Some m ->
  (store X e sym start_ end_ data c).2 = Ok tt ->
  FreshnessManager.get_cache_age e' sym start_ end_
    (store X e sym start_ end_ data c).1
  = FreshnessManager.get_cache_age e' sym start_ end_ c
  ∧ ∃ m', get_metadata sym start_ end_ (store X e sym start_ end_ data c).1
          = Some m'
          ∧ m_created_at m' = m_created_at m
          ∧ (df_empty data = false ->
               record_count m' = df_len data
               ∧ data_size_bytes m' = pickle_size X data
               ∧ last_accessed m' = dt_seconds (datetime_now e)).
Proof.
  intros Hm Hr.
  destruct (store_ok_inv _ _ _ _ _ _ _ Hr) as [[He ->]|(He & tb & _ & ->)].
  - split; [done|]. exists m. unfold get_metadata.
    split_and!; [done|done|]. intros. congruence.
  - unfold FreshnessManager.get_cache_age, get_metadata, upsert_metadata.
    simpl. rewrite Hm, lookup_insert_eq. simpl.
    split; [done|]. eexists. split_and!; done.
Qed.



(** The cache that [get] leaves and the frame it returns. *)
Lemma get_state X e sym start_ end_ c :
  (get X e sym start_ end_ c).1
  = match cache_metadata c !! generate_cache_key sym start_ end_ with
    | None => c
    | Some m =>
        {| stock_data := stock_data c;
           cache_metadata :=
             <[generate_cache_key sym start_ end_ := update_access_time e m]>
               (cache_metadata c) |}
    end.
Proof.
  unfold get.
  destruct (cache_metadata c !! generate_cache_key sym start_ end_); [|done].
  cbv zeta. cbn [stock_data].
  destruct (select_range _ _ _ _); [done|]. by destruct (mapM _ _).
Qed.

Lemma get_value X e sym start_ end_ c :
  (get X e sym start_ end_ c).2
  = match cache_metadata c !! generate_cache_key sym start_ end_ with
    | None => None
    | Some _ =>
        match select_range sym start_ end_ (stock_data c) with
        | [] => None
        | records =>
            match mapM (record_row X) records with
            | Some rs => Some {| columns := required_columns; rows := rs |}
            | None => None
            end
        end
    end.
Proof.
  unfold get.
  destruct (cache_metadata c !! generate_cache_key sym start_ end_); [|done].
  cbv zeta. cbn [stock_data].
  destruct (select_range _ _ _ _); [done|]. by destruct (mapM _ _).
Qed.

(** X11.  A read only moves [last_accessed]: [get] leaves the rows of
    [stock_data], the set of metadata keys, every other metadata row and
    every cache age as they were, and a second [get] returns the same
    frame. *)
Theorem get_only_touches_access_time (X : External) (e : Env)
    (sym start_ end_ : string) (c : t) :
  stock_data (get X e sym start_ end_ c).1 = stock_data c
  ∧ dom (cache_metadata (get X e sym start_ end_ c).1) = dom (cache_metadata c)
  ∧ (∀ k, k ≠ generate_cache_key sym start_ end_ ->
          cache_metadata (get X e sym start_ end_ c).1 !! k
          = cache_metadata c !! k)
  ∧ (∀ e' sym' start' end',
       FreshnessManager.get_cache_age e' sym' start' end'
         (get X e sym start_ end_ c).1
       = FreshnessManager.get_cache_age e' sym' start' end' c)
  ∧ (get X e sym start_ end_ (get X e sym start_ end_ c).1).2
    = (get X e sym start_ end_ c).2.
Proof.
  rewrite !get_value, !get_state.
  destruct (cache_metadata c !! generate_cache_key sym start_ end_)
    as [m|] eqn:Hm.
  - split_and!.
    + done.
    + simpl. rewrite dom_insert_L.
      apply subseteq_union_1_L, singleton_subseteq_l.
      by apply elem_of_dom_2 in Hm.
    + intros k Hk. simpl. by rewrite lookup_insert_ne.
    + intros e' sym' start' end'.
      unfold FreshnessManager.get_cache_age, get_metadata. simpl.
      destruct (decide (generate_cache_key sym' start' end'
                        = generate_cache_key sym start_ end_)) as [->|Hne].
      * by rewrite lookup_insert_eq, Hm.
      * by rewrite lookup_insert_ne.
    + simpl. by rewrite lookup_insert_eq.
  - split_and!; try done. by rewrite Hm.
Qed.

(** X12.  A range is served only under its own key: after a store under
    one key, a [get] for a range with another key that had no metadata row
    is still a miss, whatever rows the store wrote. *)
Theorem other_range_is_a_miss (X : External) (e e' : Env)
    (sym start_ end_ sym' start' end' : string) (data : DataFrame) (c : t) :
  generate_cache_key sym' start' end' ≠ generate_cache_key sym start_ end_ ->
  cache_metadata c !! generate_cache_key sym' start' end' = None ->
  get X e' sym' start' end' (store X e sym start_ end_ data c).1
  = ((store X e sym start_ end_ data c).1, None).
Proof.
  intros Hk Hm. unfold get.
  by rewrite store_metadata_other, Hm.
Qed.








Lemma clear_matches_no_filter e sym days s t0 :
  truthy_string sym = None -> truthy_int days = None ->
  clear_matches e sym days s t0 = true.
Proof. intros Hs Hd. unfold clear_matches. by rewrite Hs, Hd. Qed.

Lemma clear_cache_all (e : Env) (sym : option string)
    (older_than_days : option Z) (c : t) :
  (∀ s t0, clear_matches e sym older_than_days s t0 = true) ->
  clear_cache e sym older_than_days c
  = (empty,
     Z.of_nat (length (stock_data c)) + Z.of_nat (size (cache_metadata c))).
Proof.
  intros Hall.
  unfold clear_cache, empty. f_equal; [f_equal|f_equal; f_equal].
  - induction (stock_data c) as [|x l IH]; [done|].
    rewrite filter_cons, decide_False; [done|]. by rewrite Hall.
  - apply map_eq. intros k. rewrite lookup_empty.
    apply eq_None_not_Some. intros [m Hk].
    apply map_lookup_filter_Some in Hk as [_ Hf]. simpl in Hf.
    by rewrite Hall in Hf.
  - f_equal. induction (stock_data c) as [|x l IH]; [done|].
    rewrite filter_cons, decide_True; [by rewrite IH|]. apply Hall.
  - f_equal. apply map_eq. intros k. apply option_eq. intros m.
    rewrite map_lookup_filter_Some. simpl. rewrite Hall. tauto.
Qed.


(** X15.  The filters of [clear_cache] follow Python truthiness: an empty
    symbol and an age of 0 days are no filter at all, like [None], and the
    call then empties both tables and returns the number of rows they
    held. *)
Theorem clear_cache_falsy_filters (e : Env) (sym : option string)
    (older_than_days : option Z) (c : t) :
  (sym = None ∨ sym = Some ""%string) ->
  (older_than_days = None ∨ older_than_days = Some 0) ->
  clear_cache e sym older_than_days c
  = (empty,
     Z.of_nat (length (stock_data c)) + Z.of_nat (size (cache_metadata c))).
Proof.
  intros Hsym Hdays. apply clear_cache_all. intros s t0.
  apply clear_matches_no_filter.
  - by destruct Hsym as [->| ->].
  - by destruct Hdays as [->| ->].
Qed.

End CacheStore.

(** ** Freshness manager: cleanup, invalidation, market hours *)

Section FreshnessMore.

Import FreshnessManager.


Lemma clear_matches_symbol e sym s t0 :
  sym ≠ ""%string ->
  DataCache.clear_matches e (Some sym) None s t0 = false <-> s ≠ sym.
Proof.
  intros Hs. unfold DataCache.clear_matches, DataCache.truthy_string; simpl.
  rewrite bool_decide_eq_false_2 by done.
  rewrite andb_true_r. apply bool_decide_eq_false.
Qed.


Lemma filter_length_pos {A} (P : A -> Prop) `{∀ x, Decision (P x)}
    (l : list A) :
  0 < Z.of_nat (length (filter P l)) <-> ∃ x, x ∈ l ∧ P x.
Proof.
  split.
  - destruct (filter P l) as [|x l'] eqn:Hf; simpl; [lia|].
    intros _. exists x.
    assert (Hx : x ∈ filter P l) by (rewrite Hf; apply list_elem_of_here).
    apply list_elem_of_filter in Hx. tauto.
  - intros (x & Hx & HP).
    assert (Hin : x ∈ filter P l) by (by apply list_elem_of_filter).
    destruct (filter P l); [by apply elem_of_nil in Hin|]. simpl. lia.
Qed.

Lemma map_filter_size_pos (P : string * DataCache.CacheMetadata -> Prop)
    `{∀ x, Decision (P x)} (m : gmap string DataCache.CacheMetadata) :
  0 < Z.of_nat (size (filter P m)) <-> ∃ k x, m !! k = Some x ∧ P (k, x).
Proof.
  split.
  - intros Hpos.
    destruct (map_choose_or_empty (filter P m)) as [(k & x & Hk)|Hempty].
    + apply map_lookup_filter_Some in Hk. by exists k, x.
    + rewrite Hempty, map_size_empty in Hpos. lia.
  - intros (k & x & Hk & HP).
    assert (Hin : filter P m !! k = Some x)
      by (by apply map_lookup_filter_Some).
    destruct (size (filter P m)) eqn:Hsz; [|lia].
    apply map_size_empty_iff in Hsz. rewrite Hsz in Hin.
    by rewrite lookup_empty in Hin.
Qed.

Lemma invalidate_cache_entry_unfold e sym start_ end_ c :
  invalidate_cache_entry e sym start_ end_ c
  = ((DataCache.clear_cache e (Some sym) None c).1,
     (DataCache.clear_cache e (Some sym) None c).2 >? 0).
Proof.
  unfold invalidate_cache_entry.
  destruct (DataCache.clear_cache e (Some sym) None c) as [c' n]. simpl.
  by destruct (n >? 0).
Qed.

(** X17.  [invalidate_cache_entry(symbol, start, end)] does not look at
    the range: for a symbol that is not empty it deletes every row and every
    metadata row of the symbol, for all its ranges, leaves the other symbols
    alone, and returns true exactly when the symbol had a row in either
    table.  For the empty symbol it empties the whole cache. *)
Theorem invalidate_cache_entry_whole_symbol (e : Env)
    (sym start_ end_ : string) (c : DataCache.t) :
  (sym ≠ ""%string ->
     (∀ r, r ∈ DataCache.stock_data
                 (invalidate_cache_entry e sym start_ end_ c).1
           <-> r ∈ DataCache.stock_data c ∧ DataCache.symbol r ≠ sym)
     ∧ (∀ k m,
          DataCache.cache_metadata
            (invalidate_cache_entry e sym start_ end_ c).1 !! k = Some m
          <-> DataCache.cache_metadata c !! k = Some m
              ∧ DataCache.m_symbol m ≠ sym)
     ∧ ((invalidate_cache_entry e sym start_ end_ c).2 = true
        <-> (∃ r, r ∈ DataCache.stock_data c ∧ DataCache.symbol r = sym)
            ∨ (∃ k m, DataCache.cache_metadata c !! k = Some m
                      ∧ DataCache.m_symbol m = sym)))
  ∧ (sym = ""%string ->
     (invalidate_cache_entry e sym start_ end_ c).1 = DataCache.empty).
Proof.
  rewrite invalidate_cache_entry_unfold. cbn [fst snd]. split.
  - intros Hs.
    assert (Hhit : ∀ s t0,
              DataCache.clear_matches e (Some sym) None s t0 = true
              <-> s = sym).
    { intros s t0. unfold DataCache.clear_matches, DataCache.truthy_string.
      simpl. rewrite bool_decide_eq_false_2 by done.
      rewrite andb_true_r. apply bool_decide_eq_true. }
    pose proof (filter_length_pos
                  (fun r => DataCache.clear_matches e (Some sym) None
                              (DataCache.symbol r) (DataCache.created_at r)
                            = true) (DataCache.stock_data c)) as Hrows.
    pose proof (map_filter_size_pos
                  (fun kv : string * DataCache.CacheMetadata =>
                     DataCache.clear_matches e (Some sym) None
                       (DataCache.m_symbol kv.2)
                       (DataCache.m_created_at kv.2) = true)
                  (DataCache.cache_metadata c)) as Hmeta.
    cbv beta in Hrows, Hmeta.
    unfold DataCache.clear_cache.
    cbn [fst snd DataCache.stock_data DataCache.cache_metadata].
    split_and!.
    + intros r. rewrite list_elem_of_filter, clear_matches_symbol by done.
      tauto.
    + intros k m. rewrite map_lookup_filter_Some. simpl.
      rewrite clear_matches_symbol by done. tauto.
    + rewrite Z.gtb_gt. split.
      * intros Hpos.
        destruct (decide (0 < Z.of_nat (length (filter (fun r =>
                    DataCache.clear_matches e (Some sym) None
                      (DataCache.symbol r) (DataCache.created_at r) = true)
                    (DataCache.stock_data c))))) as [Hr|Hr].
        -- left. apply Hrows in Hr as (r & Hin & Hm).
           exists r. split; [done|]. by apply Hhit in Hm.
        -- right. destruct Hmeta as [Hmeta _].
           destruct Hmeta as (k & m & Hk & Hm); [lia|].
           exists k, m. split; [done|]. by apply Hhit in Hm.
      * intros [(r & Hin & Hm)|(k & m & Hk & Hm)].
        -- assert (0 < Z.of_nat (length (filter (fun r =>
                     DataCache.clear_matches e (Some sym) None
                       (DataCache.symbol r) (DataCache.created_at r) = true)
                     (DataCache.stock_data c)))).
           { apply Hrows. exists r. split; [done|]. by apply Hhit. }
           lia.
        -- assert (0 < Z.of_nat (size (filter
                     (fun kv : string * DataCache.CacheMetadata =>
                        DataCache.clear_matches e (Some sym) None
                          (DataCache.m_symbol kv.2)
                          (DataCache.m_created_at kv.2) = true)
                     (DataCache.cache_metadata c)))).
           { apply Hmeta. exists k, m. split; [done|]. by apply Hhit. }
           lia.
  - intros ->. by rewrite clear_cache_all.
Qed.

(** X18.  [get_market_open_time] keeps the day and sets the time to
    09:30:00; the instant it returns lies inside the trading window, so the
    market counts as open at it exactly when the day is not a weekend.  The
    window is closed at both ends: 16:00:00 is still open, one microsecond
    later is not. *)
Theorem market_open_time_is_open (e : Env) (dt : option datetime) :
  dt_time (get_market_open_time e dt) = mk_time 9 30 0 0
  ∧ dt_weekday (get_market_open_time e dt) = dt_weekday (localize e dt)
  ∧ is_market_open e (Some (get_market_open_time e dt))
    = negb (is_weekend e dt)
  ∧ is_market_open e (Some (replace_time (localize e dt) 16 0))
    = negb (is_weekend e dt)
  ∧ is_market_open e
      (Some {| dt_seconds := dt_seconds (localize e dt);
               dt_weekday := dt_weekday (localize e dt);
               dt_time := mk_time 16 0 0 1 |}) = false.
Proof.
  unfold get_market_open_time, is_market_open, is_weekend, localize,
    replace_time; simpl.
  destruct dt as [dt|]; simpl;
    by destruct (_ >=? 5).
Qed.






End FreshnessMore.

(** ** Validation and the store step *)

Section ValidationMore.

Import DataValidator.

Lemma convert_index_inv X data d :
  convert_index X data = Some d ->
  columns d = columns data
  ∧ map snd (rows d) = map snd (rows data)
  ∧ is_datetime_index d = true.
Proof.
  unfold convert_index.
  destruct (mapM _ (rows data)) as [rs|] eqn:Hm; simpl; [|done].
  intros [= <-]. simpl. split; [done|].
  apply mapM_Some_1 in Hm.
  unfold is_datetime_index, df_index. simpl.
  induction Hm as [|r r' l l' Hr _ [IH1 IH2]]; [done|].
  destruct r as [lbl cells]. simpl in Hr.
  destruct (convert_label X lbl) as [lbl'|] eqn:Hl; simpl in Hr; [|done].
  injection Hr as <-. simpl. rewrite IH1, IH2. split; [done|].
  destruct lbl; simpl in Hl.
  - by injection Hl as <-.
  - destruct (to_datetime X s); simpl in Hl; [|done]. by injection Hl as <-.
Qed.

Lemma df_column_cells d col :
  df_column d col
  = omap (fun cells => row_get (columns d) cells col) (map snd (rows d)).
Proof.
  unfold df_column. induction (rows d) as [|r l IH]; [done|].
  cbn [map omap list_omap].
  destruct (row_get (columns d) r.2 col); [f_equal|]; exact IH.
Qed.

Lemma chronological_order_inv X data d :
  _validate_chronological_order X data = Ok d ->
  columns d = columns data
  ∧ map snd (rows d) = map snd (rows data)
  ∧ is_datetime_index d = true
  ∧ is_monotonic_increasing (timestamps d) = true.
Proof.
  unfold _validate_chronological_order.
  destruct (is_datetime_index data) eqn:Hidx; simpl.
  - destruct (is_monotonic_increasing (timestamps data)) eqn:Hm;
      simpl; [|done].
    intros [= <-]. done.
  - destruct (convert_index X data) as [d'|] eqn:Hc; simpl; [|done].
    destruct (is_monotonic_increasing (timestamps d')) eqn:Hm; simpl; [|done].
    intros [= <-]. apply convert_index_inv in Hc as (? & ? & ?). done.
Qed.

Lemma has_column_elem d col : has_column d col = true <-> col ∈ columns d.
Proof. apply bool_decide_eq_true. Qed.

Lemma validate_columns_inv data col :
  _validate_columns data = Ok tt -> col ∈ REQUIRED_COLUMNS ->
  col ∈ columns data.
Proof.
  unfold _validate_columns. case_bool_decide as Hmiss; [done|]. intros _ Hcol.
  apply has_column_elem. apply not_false_is_true. intros Hf.
  by apply (filter_nil_not_elem_of _ _ col Hmiss).
Qed.

Lemma validate_data_types_inv data col c :
  _validate_data_types data = Ok tt -> col ∈ NUMERIC_COLUMNS ->
  col ∈ columns data -> c ∈ df_column data col -> is_num c = true.
Proof.
  unfold _validate_data_types.
  destruct (forallb _ NUMERIC_COLUMNS) eqn:Hall; [|done].
  intros _ Hcol Hin Hc.
  rewrite forallb_forall in Hall.
  apply list_elem_of_In in Hcol. specialize (Hall col Hcol).
  apply orb_true_iff in Hall as [Hno|Hnum].
  - apply negb_true_iff in Hno. apply has_column_elem in Hin. congruence.
  - rewrite forallb_forall in Hnum. by apply Hnum, list_elem_of_In.
Qed.

Lemma validate_shape X data d :
  validate X (Some data) = Ok d ->
  columns d = columns data
  ∧ map snd (rows d) = map snd (rows data)
  ∧ df_empty d = false
  ∧ (∀ col, col ∈ REQUIRED_COLUMNS ->
       col ∈ columns d ∧ ∀ c, c ∈ df_column d col -> is_num c = true).
Proof.
  intros Hv.
  pose proof (validate_ok _ _ _ Hv) as (Hne & Hcols & Htypes & Hchron).
  pose proof (chronological_order_inv _ _ _ Hchron) as (Hc & Hr & _ & _).
  split_and!; try done.
  - unfold df_empty in *. rewrite Hc.
    destruct (columns data); [done|].
    destruct (rows data), (rows d); done.
  - intros col Hcol. split.
    + rewrite Hc. by apply validate_columns_inv.
    + intros c. rewrite df_column_cells, Hc, Hr, <- df_column_cells.
      apply validate_data_types_inv; try done.
      by apply validate_columns_inv.
Qed.

(** X20.  What [validate] returns is the frame it was given up to the
    index: the columns and the cells are the same, the index is a
    [DatetimeIndex] with dates that do not decrease, the frame is not empty,
    the five OHLCV columns are there and every cell in them is numeric.  A
    frame that already has a [DatetimeIndex] is returned as it is. *)
Theorem validate_sound (X : External) (data d : DataFrame) :
  validate X (Some data) = Ok d ->
  columns d = columns data
  ∧ map snd (rows d) = map snd (rows data)
  ∧ df_empty d = false
  ∧ is_datetime_index d = true
  ∧ nondecreasing (timestamps d)
  ∧ (∀ col, col ∈ REQUIRED_COLUMNS ->
       col ∈ columns d ∧ ∀ c, c ∈ df_column d col -> is_num c = true)
  ∧ (is_datetime_index data = true -> d = data).
Proof.
  intros Hv.
  pose proof (validate_shape _ _ _ Hv) as (Hc & Hr & Hne & Hnum).
  pose proof (validate_ok _ _ _ Hv) as (_ & _ & _ & Hchron).
  pose proof (chronological_order_inv _ _ _ Hchron) as (_ & _ & Hidx & Hm).
  pose proof (chronological_order_ok _ _ _ Hchron) as [_ Hsame].
  split_and!; try done.
  by apply is_monotonic_increasing_spec.
Qed.






End ValidationMore.

(** ** Single-symbol fetch: quota accounting and errors *)

Section FetchMore.

Lemma record_request_rollover e rl :
  RateLimiter.record_request e (RateLimiter.rollover e rl)
  = RateLimiter.record_request e rl.
Proof.
  unfold RateLimiter.record_request. by rewrite rollover_idem.
Qed.

Lemma used_today_rollover e rl :
  RateLimiter.used_today e (RateLimiter.rollover e rl)
  = RateLimiter.used_today e rl.
Proof. unfold RateLimiter.used_today. by rewrite rollover_idem. Qed.

Lemma used_today_record_request e rl :
  RateLimiter.used_today e (RateLimiter.record_request e rl)
  = RateLimiter.used_today e rl + 1.
Proof.
  rewrite used_today_current by (by rewrite record_request_date).
  apply record_request_used.
Qed.

Lemma validate_data_raises X data ex :
  DataFetcher._validate_data X data = Raise ex ->
  ex = ValueError ∨ ex = ValidationError.
Proof.
  unfold DataFetcher._validate_data.
  destruct data as [d|]; [|intros [= <-]; by left].
  destruct (df_empty d); [intros [= <-]; by left|].
  intros H. right. by apply (validate_raises _ _ _ H).
Qed.

Lemma store_row_raises e sym cols r acc ex :
  DataCache.store_row e sym cols r acc = Raise ex ->
  ex = ValueError ∨ ex = KeyError.
Proof.
  unfold DataCache.store_row, to_float, to_int.
  destruct r as [lbl row], acc as [tb n].
  repeat (case_match; simpl; try (intros [= <-]; tauto)).
Qed.

Lemma store_rows_raises e sym cols rs acc ex :
  DataCache.store_rows e sym cols rs acc = Raise ex ->
  ex = ValueError ∨ ex = KeyError.
Proof.
  revert acc. induction rs as [|r rs IH]; intros acc; simpl; [done|].
  destruct (DataCache.store_row e sym cols r acc) as [acc'|ex'] eqn:Hrow;
    simpl.
  - apply IH.
  - intros [= <-]. by apply store_row_raises in Hrow.
Qed.

Lemma store_raises X e sym start_ end_ data c ex :
  (DataCache.store X e sym start_ end_ data c).2 = Raise ex ->
  ex = ValueError ∨ ex = KeyError.
Proof.
  unfold DataCache.store. destruct (df_empty data); [done|].
  case_bool_decide; simpl; [intros [= <-]; by left|].
  destruct (DataCache.store_rows _ _ _ _ _) as [[tb n]|ex'] eqn:Hrows;
    simpl; [done|].
  intros [= <-]. by apply store_rows_raises in Hrows.
Qed.

(** The ways through [fetch_historical_data], by what the cache, the
    limiter and the provider answer. *)
Lemma fetch_cases X sym start_ end_ w :
  let w' := (DataFetcher.fetch_historical_data X sym start_ end_ w).1 in
  let r := (DataFetcher.fetch_historical_data X sym start_ end_ w).2 in
  let hit := (DataCache.get X (env w) sym start_ end_ (cache w)).2 in
  let c1 := (DataCache.get X (env w) sym start_ end_ (cache w)).1 in
  env w' = env w
  ∧ ((∃ d, hit = Some d ∧ r = Ok d
           ∧ rate_limiter w' = rate_limiter w
           ∧ api_calls w' = api_calls w ∧ cache w' = c1)
     ∨ (hit = None ∧ quota_limit w <= quota_used w
        ∧ r = Raise QuotaExceededError
        ∧ rate_limiter w' = RateLimiter.rollover (env w) (rate_limiter w)
        ∧ api_calls w' = api_calls w ∧ cache w' = c1)
     ∨ (hit = None ∧ quota_used w < quota_limit w
        ∧ (∃ ex, time_series X sym start_ end_ = Raise ex
                 ∧ r = wrap_fetch_error (Raise ex))
        ∧ rate_limiter w' = RateLimiter.rollover (env w) (rate_limiter w)
        ∧ api_calls w' = api_calls w ++ [(sym, start_, end_)]
        ∧ cache w' = c1)
     ∨ (hit = None ∧ quota_used w < quota_limit w
        ∧ (∃ data, time_series X sym start_ end_ = Ok data
             ∧ ((∃ ex, DataFetcher._validate_data X data = Raise ex
                       ∧ r = Raise DataFetchError ∧ cache w' = c1)
                ∨ (∃ d, DataFetcher._validate_data X data = Ok d
                        ∧ cache w'
                          = (DataCache.store X (env w) sym start_ end_ d c1).1
                        ∧ (((DataCache.store X (env w) sym start_ end_ d c1).2
                            = Ok tt ∧ r = Ok d)
                           ∨ (is_ok (DataCache.store X (env w) sym start_ end_
                                       d c1).2 = false
                              ∧ r = Raise DataFetchError)))))
        ∧ rate_limiter w'
          = RateLimiter.record_request (env w) (rate_limiter w)
        ∧ api_calls w' = api_calls w ++ [(sym, start_, end_)])).
Proof.
  cbv zeta. unfold DataFetcher.fetch_historical_data.
  destruct (DataCache.get X (env w) sym start_ end_ (cache w))
    as [c1 hit] eqn:Hget.
  cbn [fst snd].
  destruct hit as [d|].
  { simpl. split; [done|]. left. by exists d. }
  cbn [DataFetcher._is_fresh set_cache env rate_limiter].
  destruct (can_make_request_spec (env w) (rate_limiter w)) as [Hst Hc].
  destruct (RateLimiter.can_make_request (env w) (rate_limiter w))
    as [rl allowed].
  simpl in Hst, Hc. subst rl.
  destruct allowed; simpl.
  2:{ split; [done|]. right; left. split_and!; try done.
      unfold quota_limit, quota_used.
      destruct (Z.le_gt_cases (RateLimiter.daily_limit (rate_limiter w))
                  (RateLimiter.used_today (env w) (rate_limiter w)));
        [done|]. exfalso. assert (false = true) by (by apply Hc). done. }
  assert (Hlt : quota_used w < quota_limit w) by (by apply Hc).
  unfold DataFetcher.fetch_from_api. simpl.
  destruct (time_series X sym start_ end_) as [data|ex] eqn:Hts; simpl.
  2:{ split; [done|]. right; right; left. split_and!; try done.
      by exists ex. }
  rewrite record_request_rollover.
  destruct (DataFetcher._validate_data X data) as [d|ex] eqn:Hv; simpl.
  2:{ split; [done|]. right; right; right. split_and!; try done.
      exists data. split; [done|]. left. exists ex. split_and!; try done.
      by destruct (validate_data_raises _ _ _ Hv) as [->| ->]. }
  destruct (DataCache.store X (env w) sym start_ end_ d c1) as [c2 rs] eqn:Hs.
  simpl. destruct rs as [[]|ex]; simpl.
  - split; [done|]. right; right; right. split_and!; try done.
    exists data. split; [done|]. right. exists d. rewrite Hs.
    split_and!; try done. by left.
  - assert (Hex : (DataCache.store X (env w) sym start_ end_ d c1).2
                  = Raise ex) by (by rewrite Hs).
    split; [done|]. right; right; right. split_and!; try done.
    exists data. split; [done|]. right. exists d. rewrite Hs.
    split_and!; try done.
    right. split; [done|].
    by destruct (store_raises _ _ _ _ _ _ _ _ Hex) as [->| ->].
Qed.

(** What a fetch does to the quota and to the log of provider calls. *)
Lemma fetch_effect X sym start_ end_ w :
  let w' := (DataFetcher.fetch_historical_data X sym start_ end_ w).1 in
  let hit := (DataCache.get X (env w) sym start_ end_ (cache w)).2 in
  env w' = env w
  ∧ quota_limit w' = quota_limit w
  ∧ quota_used w'
    = quota_used w
      + (if bool_decide (hit = None) && (quota_used w <? quota_limit w)
            && is_ok (time_series X sym start_ end_)
         then 1 else 0)
  ∧ calls_made w'
    = calls_made w
      + (if bool_decide (hit = None) && (quota_used w <? quota_limit w)
         then 1 else 0).
Proof.
  cbv zeta.
  destruct (fetch_cases X sym start_ end_ w) as [Henv Hcases].
  split; [done|].
  unfold quota_limit, quota_used, calls_made. rewrite Henv.
  destruct Hcases
    as [(d & -> & _ & -> & -> & _)
       |[(-> & Hfull & _ & -> & -> & _)
        |[(-> & Hlt & (ex & -> & _) & -> & -> & _)
         |(-> & Hlt & (data & -> & _) & -> & ->)]]].
  - simpl. split_and!; [done|lia|lia].
  - rewrite rollover_daily_limit, used_today_rollover.
    unfold quota_limit, quota_used in Hfull.
    destruct (Z.ltb_spec (RateLimiter.used_today (env w) (rate_limiter w))
                (RateLimiter.daily_limit (rate_limiter w))); [lia|].
    simpl. split_and!; [done|lia|lia].
  - rewrite rollover_daily_limit, used_today_rollover.
    unfold quota_limit, quota_used in Hlt.
    destruct (Z.ltb_spec (RateLimiter.used_today (env w) (rate_limiter w))
                (RateLimiter.daily_limit (rate_limiter w))); [|lia].
    simpl. rewrite length_app. simpl. split_and!; [done|lia|lia].
  - rewrite record_request_daily_limit, used_today_record_request.
    unfold quota_limit, quota_used in Hlt.
    destruct (Z.ltb_spec (RateLimiter.used_today (env w) (rate_limiter w))
                (RateLimiter.daily_limit (rate_limiter w))); [|lia].
    simpl. rewrite length_app. simpl. split_and!; [done|lia|lia].
Qed.

(** X22.  Quota accounting of a single fetch.  The limit is never touched.
    A provider call is made exactly on a cache miss with quota left, and a
    request is recorded exactly when that call returns: a cache hit and a
    refused fetch cost nothing, a provider call that raises is not charged,
    and a call that returns is charged once even if validation or the store
    fails afterwards.  The count never passes a limit it was not already
    over. *)
Theorem fetch_quota_accounting (X : External) (sym start_ end_ : string)
    (w : World) :
  quota_limit (DataFetcher.fetch_historical_data X sym start_ end_ w).1
  = quota_limit w
  ∧ quota_used (DataFetcher.fetch_historical_data X sym start_ end_ w).1
    = quota_used w
      + (if bool_decide
              ((DataCache.get X (env w) sym start_ end_ (cache w)).2 = None)
            && (quota_used w <? quota_limit w)
            && is_ok (time_series X sym start_ end_)
         then 1 else 0)
  ∧ calls_made (DataFetcher.fetch_historical_data X sym start_ end_ w).1
    = calls_made w
      + (if bool_decide
              ((DataCache.get X (env w) sym start_ end_ (cache w)).2 = None)
            && (quota_used w <? quota_limit w)
         then 1 else 0)
  ∧ quota_used (DataFetcher.fetch_historical_data X sym start_ end_ w).1
    <= Z.max (quota_used w) (quota_limit w).
Proof.
  destruct (fetch_effect X sym start_ end_ w) as (_ & Hl & Hu & Hc).
  split_and!; [done|done|done|].
  rewrite Hu.
  destruct (bool_decide _); simpl; [|lia].
  destruct (Z.ltb_spec (quota_used w) (quota_limit w)); simpl; [|lia].
  destruct (is_ok _); lia.
Qed.

(** X23.  The only exceptions [fetch_historical_data] raises are
    [QuotaExceededError], [InvalidSymbolError] and [DataFetchError].  It
    raises [QuotaExceededError] only on a cache miss with the quota used up,
    before any provider call; [InvalidSymbolError] only when the provider
    raised it; everything else the provider, the validation or the store
    raise, a quota error of the provider included, comes out as
    [DataFetchError]. *)
Theorem fetch_error_taxonomy (X : External) (sym start_ end_ : string)
    (w : World) (ex : exn) :
  (DataFetcher.fetch_historical_data X sym start_ end_ w).2 = Raise ex ->
  (ex = QuotaExceededError
   ∧ (DataCache.get X (env w) sym start_ end_ (cache w)).2 = None
   ∧ quota_limit w <= quota_used w
   ∧ api_calls (DataFetcher.fetch_historical_data X sym start_ end_ w).1
     = api_calls w)
  ∨ (ex = InvalidSymbolError
     ∧ time_series X sym start_ end_ = Raise InvalidSymbolError)
  ∨ (ex = DataFetchError
     ∧ api_calls (DataFetcher.fetch_historical_data X sym start_ end_ w).1
       = api_calls w ++ [(sym, start_, end_)]).
Proof.
  destruct (fetch_cases X sym start_ end_ w) as [_ Hcases].
  destruct Hcases
    as [(d & _ & -> & _)
       |[(Hmiss & Hfull & -> & _ & Hcalls & _)
        |[(_ & _ & (ex' & Hts & ->) & _ & Hcalls & _)
         |(_ & _ & (data & _ & Hres) & _ & Hcalls)]]].
  - done.
  - intros [= <-]. by left.
  - destruct ex'; simpl; intros [= <-];
      first [by right; left | by right; right].
  - destruct Hres as [(ex' & _ & -> & _)
                     |(d & _ & _ & [[_ ->]|[_ ->]])]; try done;
      intros [= <-]; by right; right.
Qed.

(** X24.  What a fetch returns is either the cached frame or a frame the
    provider just sent and [validate] accepted; in the second case the
    frame has been stored, the range has a metadata row counting its rows,
    and exactly one request has been recorded. *)
Theorem fetch_returns_cached_or_validated (X : External)
    (sym start_ end_ : string) (w : World) (d : DataFrame) :
  (DataFetcher.fetch_historical_data X sym start_ end_ w).2 = Ok d ->
  (DataCache.get X (env w) sym start_ end_ (cache w)).2 = Some d
  ∨ ((DataCache.get X (env w) sym start_ end_ (cache w)).2 = None
     ∧ (∃ raw, time_series X sym start_ end_ = Ok (Some raw)
               ∧ DataValidator.validate X (Some raw) = Ok d)
     ∧ (∃ m, DataCache.get_metadata sym start_ end_
               (cache (DataFetcher.fetch_historical_data
                         X sym start_ end_ w).1) = Some m
             ∧ DataCache.record_count m = df_len d)
     ∧ quota_used (DataFetcher.fetch_historical_data X sym start_ end_ w).1
       = quota_used w + 1).
Proof.
  intros Hr.
  destruct (fetch_effect X sym start_ end_ w) as (_ & _ & Hu & _).
  destruct (fetch_cases X sym start_ end_ w) as [_ Hcases].
  rewrite Hr in Hcases.
  destruct Hcases
    as [(d' & Hhit & [= <-] & _)
       |[(_ & _ & ? & _)
        |[(_ & _ & (ex' & _ & Hw) & _)
         |(Hmiss & Hlt & (data & Hts & Hres) & _ & _)]]]; try done.
  - by left.
  - by destruct ex'.
  - right.
    destruct Hres as [(ex' & _ & ? & _)
                     |(d' & Hv & Hcache & [[Hs [= <-]]|[_ ?]])]; try done.
    split; [done|]. split_and!.
    + unfold DataFetcher._validate_data in Hv.
      destruct data as [raw|]; [|done].
      destruct (df_empty raw); [done|]. by exists raw.
    + rewrite Hcache.
      assert (Hne : df_empty d = false).
      { unfold DataFetcher._validate_data in Hv.
        destruct data as [raw|]; [|done].
        destruct (df_empty raw); [done|].
        by apply validate_shape in Hv as (_ & _ & ? & _). }
      destruct (store_ok_inv _ _ _ _ _ _ _ Hs)
        as [[He _]|(_ & tb & _ & ->)]; [congruence|].
      unfold DataCache.get_metadata, DataCache.upsert_metadata. simpl.
      destruct (DataCache.cache_metadata _ !! _);
        rewrite lookup_insert_eq; by eexists.
    + rewrite Hu, Hmiss, Hts. simpl.
      destruct (Z.ltb_spec (quota_used w) (quota_limit w)); [done|lia].
Qed.

(** X25.  The two single-symbol paths are one: [_fetch_single_symbol] of
    the batch processor leaves the same world as [fetch_historical_data] and
    returns the same frame or raises the same exception. *)
Theorem fetch_paths_agree (X : External) (sym start_ end_ : string)
    (w : World) :
  BatchProcessor._fetch_single_symbol X start_ end_ sym w
  = ((DataFetcher.fetch_historical_data X sym start_ end_ w).1,
     d ← (DataFetcher.fetch_historical_data X sym start_ end_ w).2;
     Ok (Some d)).
Proof.
  unfold BatchProcessor._fetch_single_symbol,
    DataFetcher.fetch_historical_data.
  destruct (DataCache.get X (env w) sym start_ end_ (cache w)) as [c1 hit].
  destruct hit as [d|]; [done|].
  destruct (RateLimiter.can_make_request _ _) as [rl allowed].
  destruct allowed; [|done]. cbn [negb].
  unfold BatchProcessor.fetch_from_api, DataFetcher.fetch_from_api,
    DataFetcher._validate_data.
  destruct (time_series X sym start_ end_) as [data|ex]; [|done].
  destruct data as [raw|]; [|done].
  unfold DataValidator.validate at 1.
  destruct (df_empty raw) eqn:He; [done|].
  unfold DataValidator.validate. rewrite He.
  destruct (_ ← _; _) as [v|ex]; [|done].
  destruct (DataCache.store _ _ _ _ _ _ _) as [c2 rs].
  by destruct rs.
Qed.

End FetchMore.

(** ** Batches: quota, result keys, bulk store *)

Section BatchMore.

Variable X : External.
Variables start_ end_ : string.

Lemma single_symbol_state sym w :
  (BatchProcessor._fetch_single_symbol X start_ end_ sym w).1
  = (DataFetcher.fetch_historical_data X sym start_ end_ w).1.
Proof.
  unfold BatchProcessor._fetch_single_symbol,
    DataFetcher.fetch_historical_data.
  destruct (DataCache.get X (env w) sym start_ end_ (cache w)) as [c1 hit].
  destruct hit as [d|]; [done|].
  destruct (RateLimiter.can_make_request _ _) as [rl allowed].
  destruct allowed; [|done]. cbn [negb].
  unfold BatchProcessor.fetch_from_api, DataFetcher.fetch_from_api,
    DataFetcher._validate_data.
  destruct (time_series X sym start_ end_) as [data|ex]; [|done].
  destruct data as [raw|]; [|done].
  unfold DataValidator.validate at 1.
  destruct (df_empty raw) eqn:He; [done|].
  unfold DataValidator.validate. rewrite He.
  destruct (_ ← _; _) as [v|ex]; [|done].
  destruct (DataCache.store _ _ _ _ _ _ _) as [c2 rs].
  by destruct rs.
Qed.

(** The world a batch loop ends in does not depend on the results it
    collects. *)
Lemma process_world fetch symbols w (r1 r2 : gmap string DataFrame) :
  (BatchProcessor.process fetch symbols w r1).1
  = (BatchProcessor.process fetch symbols w r2).1.
Proof.
  revert w r1 r2. induction symbols as [|sym rest IH]; intros w r1 r2; [done|].
  simpl. destruct (fetch sym w) as [w' r].
  destruct r as [[d|]|ex]; [apply IH..|]. destruct ex; apply IH.
Qed.

Lemma process_world_cons fetch sym rest w (results : gmap string DataFrame) :
  (BatchProcessor.process fetch (sym :: rest) w results).1
  = (BatchProcessor.process fetch rest (fetch sym w).1 results).1.
Proof.
  simpl. destruct (fetch sym w) as [w' r]. simpl.
  destruct r as [[d|]|ex]; [apply process_world..|].
  destruct ex; apply process_world.
Qed.

(** Quota and provider calls over a batch loop. *)
Lemma process_effect symbols w (results : gmap string DataFrame) :
  let w' := (BatchProcessor.process
               (BatchProcessor._fetch_single_symbol X start_ end_)
               symbols w results).1 in
  quota_limit w' = quota_limit w
  ∧ quota_used w <= quota_used w' <= Z.max (quota_used w) (quota_limit w)
  ∧ calls_made w <= calls_made w'
                 <= calls_made w + Z.of_nat (length symbols)
  ∧ (quota_limit w <= quota_used w -> calls_made w' = calls_made w).
Proof.
  cbv zeta. revert w results.
  induction symbols as [|sym rest IH]; intros w results.
  - simpl. split_and!; lia.
  - rewrite process_world_cons, single_symbol_state.
    destruct (fetch_effect X sym start_ end_ w) as (_ & Hl & Hu & Hc).
    cbv zeta in Hl, Hu, Hc.
    set (w1 := (DataFetcher.fetch_historical_data X sym start_ end_ w).1) in *.
    destruct (IH w1 results) as (IHl & IHu & IHc & IHfull).
    cbn [length]. rewrite Nat2Z.inj_succ.
    assert (Hstep : quota_used w <= quota_used w1
                    <= Z.max (quota_used w) (quota_limit w)
                    ∧ calls_made w <= calls_made w1 <= calls_made w + 1
                    ∧ (quota_limit w <= quota_used w ->
                       calls_made w1 = calls_made w
                       ∧ quota_used w1 = quota_used w)).
    { rewrite Hu, Hc. destruct (bool_decide _); simpl; [|lia].
      destruct (Z.ltb_spec (quota_used w) (quota_limit w)); simpl.
      - destruct (is_ok _); lia.
      - lia. }
    destruct Hstep as (Hu1 & Hc1 & Hfull1).
    split_and!; lia.
Qed.

Lemma slice_to_length {A} (l : list A) (n : Z) :
  (length (slice_to l n) <= length l)%nat
  ∧ (0 <= n -> Z.of_nat (length (slice_to l n)) <= n).
Proof.
  unfold slice_to. destruct (Z.leb_spec 0 n).
  - rewrite length_take. split; lia.
  - rewrite length_take. split; lia.
Qed.

(** X26.  A batch keeps the quota: [fetch_multiple_symbols] never changes
    the limit, never lowers the count and never raises it above a limit it
    was not already over, and it makes at most [min(len(symbols),
    remaining)] provider calls, none at all when no quota remains. *)
Theorem batch_respects_quota (symbols : list string) (w : World) :
  quota_limit
    (BatchProcessor.fetch_multiple_symbols X symbols start_ end_ w).1
  = quota_limit w
  ∧ quota_used w
    <= quota_used
         (BatchProcessor.fetch_multiple_symbols X symbols start_ end_ w).1
    <= Z.max (quota_used w) (quota_limit w)
  ∧ calls_made w
    <= calls_made
         (BatchProcessor.fetch_multiple_symbols X symbols start_ end_ w).1
    <= calls_made w
       + Z.max 0 (Z.min (Z.of_nat (length symbols))
                        (quota_limit w - quota_used w)).
Proof.
  unfold BatchProcessor.fetch_multiple_symbols,
    BatchProcessor.fetch_multiple_symbols_with,
    BatchProcessor.calculate_optimal_batch_size.
  set (w0 := set_rate_limiter w
               (RateLimiter.rollover (env w) (rate_limiter w))).
  assert (Hw0 : quota_limit w0 = quota_limit w
                ∧ quota_used w0 = quota_used w
                ∧ calls_made w0 = calls_made w).
  { unfold quota_limit, quota_used, calls_made, w0. simpl.
    by rewrite rollover_daily_limit, used_today_rollover. }
  destruct Hw0 as (Hl0 & Hu0 & Hc0).
  unfold RateLimiter.get_usage.
  fold (RateLimiter.used_today (env w) (rate_limiter w)).
  rewrite rollover_daily_limit.
  destruct (Z.eqb_spec (RateLimiter.daily_limit (rate_limiter w)) 0)
    as [Hz|Hnz]; cbn [fst snd RateLimiter.r_remaining]; fold w0.
  { rewrite Hl0, Hu0, Hc0. split_and!; lia. }
  fold (quota_limit w). fold (quota_used w).
  set (rem := quota_limit w - quota_used w).
  set (n := if (rem >? 0) && (Z.min (Z.of_nat (length symbols)) rem =? 0)
            then 1 else Z.min (Z.of_nat (length symbols)) rem).
  destruct (Z.eqb_spec n 0) as [Hn0|Hn0]; cbn [fst].
  { rewrite Hl0, Hu0, Hc0. split_and!; lia. }
  pose proof (process_effect (slice_to symbols n) w0 ∅) as Heff.
  cbv zeta in Heff.
  destruct (BatchProcessor.process _ (slice_to symbols n) w0 ∅)
    as [w' results]. cbn [fst] in *.
  destruct Heff as (Hl & Hu & Hc & Hfull).
  rewrite Hl0, Hu0, Hc0 in *.
  split_and!; try lia.
  destruct (slice_to_length symbols n) as [Hlen Hlen'].
  destruct (Z.le_gt_cases rem 0) as [Hrem|Hrem].
  - rewrite Hfull by (unfold rem in Hrem; lia). lia.
  - assert (Hn : n <= Z.min (Z.of_nat (length symbols)) rem
                 ∨ symbols = []).
    { subst n. destruct (Z.gtb_spec rem 0); [|lia]. simpl.
      destruct (Z.eqb_spec (Z.min (Z.of_nat (length symbols)) rem) 0);
        [|left; lia].
      right. destruct symbols; [done|]. simpl in *. lia. }
    destruct Hn as [Hn| ->].
    + assert (0 <= n).
      { subst n. destruct (_ && _); lia. }
      lia.
    + assert (Hnil : slice_to (@nil string) n = []).
      { unfold slice_to. destruct (0 <=? n); by rewrite take_nil. }
      rewrite Hnil in Hc. simpl in Hc. lia.
Qed.

Lemma process_size fetch symbols w (results : gmap string DataFrame) :
  (size (BatchProcessor.process fetch symbols w results).2
   <= size results + length symbols)%nat.
Proof.
  revert w results. induction symbols as [|sym rest IH]; intros w results.
  - simpl. lia.
  - simpl. destruct (fetch sym w) as [w' r].
    assert (Hskip : (size (BatchProcessor.process fetch rest w' results).2
                     <= size results + S (length rest))%nat).
    { specialize (IH w' results). lia. }
    destruct r as [[d|]|ex]; [|done|by destruct ex].
    specialize (IH w' (<[sym := d]> results)).
    destruct (results !! sym) eqn:Hk.
    + rewrite map_size_insert_Some in IH by done. lia.
    + rewrite map_size_insert_None in IH by done. lia.
Qed.

(** X27.  The result of [fetch_multiple_symbols] has keys only among the
    symbols of the batch, the first [batch_size] symbols of the list, and
    so holds at most that many frames. *)
Theorem batch_result_within_batch
    (fetch : string -> World -> World * result (option DataFrame))
    (symbols : list string) (w : World) (n : Z)
    (results : gmap string DataFrame) :
  (BatchProcessor.calculate_optimal_batch_size symbols w).2 = Ok n ->
  (BatchProcessor.fetch_multiple_symbols_with fetch symbols w).2
  = Ok results ->
  (∀ s, s ∈ dom results -> s ∈ slice_to symbols n ∧ s ∈ symbols)
  ∧ (size results <= length (slice_to symbols n))%nat
  ∧ (0 <= n -> Z.of_nat (size results) <= n).
Proof.
  intros Hn. unfold BatchProcessor.fetch_multiple_symbols_with.
  destruct (BatchProcessor.calculate_optimal_batch_size symbols w)
    as [w0 r]. simpl in Hn. subst r.
  destruct (n =? 0); [done|].
  pose proof (process_dom fetch (slice_to symbols n) w0 ∅) as Hdom.
  pose proof (process_size fetch (slice_to symbols n) w0 ∅) as Hsize.
  destruct (BatchProcessor.process fetch (slice_to symbols n) w0 ∅)
    as [w' res]. simpl in *.
  intros [= <-].
  destruct (slice_to_length symbols n) as [_ Hlen].
  rewrite map_size_empty in Hsize.
  split_and!; [|lia|lia].
  intros s Hs. apply Hdom in Hs as [Hs|(i & d & Hi & _)].
  - by rewrite dom_empty in Hs.
  - assert (Hin : s ∈ slice_to symbols n)
      by (by apply list_elem_of_lookup_2 in Hi).
    split; [done|]. unfold slice_to in Hin.
    destruct (0 <=? n);
      by apply elem_of_take in Hin as (j & Hj%list_elem_of_lookup_2 & _).
Qed.

End BatchMore.

Section BulkStore.

Variable X : External.
Variables start_ end_ : string.





End BulkStore.

(** * The properties at the scenarios *)

(** Two requests recorded against a limit of three, then reopened with a
    limit of ten. *)
Lemma reopen_restores_usage_witness :
  RateLimiter._current_usage
    (RateLimiter.init 10 1
       (RateLimiter.quota_tracking
          (RateLimiter.record_requests [Scenario.now; Scenario.now]
             (RateLimiter.init 3 (15 # 2) ∅ Scenario.now)))
       Scenario.now)
  = RateLimiter._current_usage
      (RateLimiter.record_requests [Scenario.now; Scenario.now]
         (RateLimiter.init 3 (15 # 2) ∅ Scenario.now))
  ∧ RateLimiter.used
      (RateLimiter._current_usage
         (RateLimiter.record_requests [Scenario.now; Scenario.now]
            (RateLimiter.init 3 (15 # 2) ∅ Scenario.now))) = 2.
Proof.
  split; [|reflexivity].
  apply (reopen_restores_usage 3 10 (15 # 2) 1 ∅ Scenario.now Scenario.now
           [Scenario.now; Scenario.now]);
    [repeat constructor | reflexivity].
Defined.

(** Yesterday's limiter on the next day. *)
Lemma rollover_starts_from_zero_witness :
  RateLimiter.used_today Scenario.now Scenario.limiter_yesterday = 0
  ∧ (RateLimiter.can_make_request Scenario.now Scenario.limiter_yesterday).2
    = true
  ∧ RateLimiter.used
      (RateLimiter._current_usage
         (RateLimiter.record_request Scenario.now Scenario.limiter_yesterday))
    = 1
  ∧ RateLimiter.quota_tracking
      (RateLimiter.can_make_request Scenario.now Scenario.limiter_yesterday).1
    !! "2024-01-14"%string
    = RateLimiter.quota_tracking Scenario.limiter_yesterday
      !! "2024-01-14"%string.
Proof.
  destruct (rollover_starts_from_zero Scenario.now Scenario.limiter_yesterday)
    as (H0 & Hcan & H1 & _ & Hother).
  { intros H. vm_compute in H. discriminate H. }
  split; [exact H0|]. split; [apply Hcan; reflexivity|].
  split; [exact H1|]. apply Hother. intros H. discriminate H.
Defined.

(** A second [acquire] at the clock reading of the first one. *)
Lemma acquire_spacing_witness :
  (RateLimiter.min_interval
     (RateLimiter.acquire Scenario.now Scenario.limiter3).1.2
   <= time_time
        (RateLimiter.acquire Scenario.now
           (RateLimiter.acquire Scenario.now Scenario.limiter3).1.2).1.1
      - RateLimiter._last_request_time
          (RateLimiter.acquire Scenario.now Scenario.limiter3).1.2)%Q.
Proof.
  destruct (acquire_spacing Scenario.now
              (RateLimiter.acquire Scenario.now Scenario.limiter3).1.2)
    as (H & _); [vm_compute; reflexivity|].
  exact H.
Defined.

(** Five calls of [acquire] against a limit of three. *)
Lemma acquires_stop_at_limit_witness :
  RateLimiter.used
    (RateLimiter._current_usage
       (RateLimiter.acquires
          [Scenario.now; Scenario.now; Scenario.now; Scenario.now;
           Scenario.now] Scenario.limiter3)) = 3.
Proof.
  destruct (acquires_stop_at_limit "2024-01-15"
              [Scenario.now; Scenario.now; Scenario.now; Scenario.now;
               Scenario.now] Scenario.limiter3) as (H & _);
    [split; reflexivity | repeat constructor | vm_compute; discriminate |].
  exact H.
Defined.

(** A reset that is not forced, one in production, and a forced one. *)
Lemma reset_quota_gate_witness :
  RateLimiter.reset_quota false None Scenario.now Scenario.limiter_over
  = (Scenario.limiter_over, RateLimiter.ResetValueError)
  ∧ RateLimiter.reset_quota true (Some "Production"%string) Scenario.now
      Scenario.limiter_over
    = (Scenario.limiter_over, RateLimiter.ResetRuntimeError)
  ∧ RateLimiter.used_today Scenario.now
      (RateLimiter.reset_quota true (Some "test"%string) Scenario.now
         Scenario.limiter_over).1 = 0.
Proof.
  split; [|split].
  - apply (reset_quota_gate false None Scenario.now Scenario.limiter_over).
    reflexivity.
  - apply (reset_quota_gate true (Some "Production"%string) Scenario.now
             Scenario.limiter_over); reflexivity.
  - destruct (reset_quota_gate true (Some "test"%string) Scenario.now
                Scenario.limiter_over) as (_ & _ & H).
    destruct H as (_ & H & _); [reflexivity | | exact H].
    intros Hp. vm_compute in Hp. discriminate Hp.
Defined.



(** The day-old range stored again a day later. *)
Lemma restore_keeps_age_witness :
  FreshnessManager.get_cache_age Scenario.now "AAPL" "2024-01-01" "2024-01-05"
    (DataCache.store Scenario.provider Scenario.now
       "AAPL" "2024-01-01" "2024-01-05" Scenario.sample_data
       Scenario.cache_day_old).1
  = FreshnessManager.get_cache_age Scenario.now
      "AAPL" "2024-01-01" "2024-01-05" Scenario.cache_day_old.
Proof.
  edestruct (restore_keeps_age Scenario.provider Scenario.now Scenario.now
               "AAPL" "2024-01-01" "2024-01-05" Scenario.sample_data
               Scenario.cache_day_old) as [H _];
    [vm_compute; reflexivity | vm_compute; reflexivity |].
  exact H.
Defined.



(** The first five days are cached; the whole month is asked for. *)
Lemma other_range_is_a_miss_witness :
  DataCache.get Scenario.provider Scenario.now
    "AAPL" "2024-01-01" Scenario.january Scenario.cache_day_old
  = (Scenario.cache_day_old, None).
Proof.
  apply (other_range_is_a_miss Scenario.provider Scenario.stored_at
           Scenario.now "AAPL" "2024-01-01" "2024-01-05"
           "AAPL" "2024-01-01" Scenario.january Scenario.sample_data
           DataCache.empty).
  - intros H. vm_compute in H. discriminate H.
  - reflexivity.
Defined.

(** [clear_cache(symbol="", older_than_days=0)] on the day-old cache. *)
Lemma clear_cache_falsy_filters_witness :
  DataCache.clear_cache Scenario.now (Some ""%string) (Some 0)
    Scenario.cache_day_old
  = (DataCache.empty, 3).
Proof.
  etrans.
  - apply (clear_cache_falsy_filters Scenario.now (Some ""%string) (Some 0)
             Scenario.cache_day_old); right; reflexivity.
  - vm_compute. reflexivity.
Defined.


(** Invalidating AAPL for a range that was never stored. *)
Lemma invalidate_cache_entry_whole_symbol_witness :
  (FreshnessManager.invalidate_cache_entry Scenario.now
     "AAPL" "2024-01-01" Scenario.january Scenario.cache_day_old).2 = true.
Proof.
  destruct (invalidate_cache_entry_whole_symbol Scenario.now
              "AAPL" "2024-01-01" Scenario.january Scenario.cache_day_old)
    as [H _].
  destruct H as (_ & _ & H); [discriminate|].
  apply H. right.
  exists (DataCache.generate_cache_key "AAPL" "2024-01-01" "2024-01-05").
  eexists. split; vm_compute; reflexivity.
Defined.


(** The sample frame passes validation unchanged. *)
Lemma validate_sound_witness :
  DataValidator.nondecreasing (DataValidator.timestamps Scenario.sample_data)
  ∧ df_empty Scenario.sample_data = false.
Proof.
  destruct (validate_sound Scenario.provider Scenario.sample_data
              Scenario.sample_data) as (_ & _ & He & _ & Hn & _);
    [reflexivity|].
  split; [exact Hn | exact He].
Defined.


(** A symbol the provider does not know, and a fetch with the quota used
    up. *)
Lemma fetch_error_taxonomy_witness :
  time_series Scenario.provider "INVALID" "2024-01-01" "2024-01-05"
  = Raise InvalidSymbolError
  ∧ api_calls
      (DataFetcher.fetch_historical_data Scenario.provider
         "AAPL" "2024-01-01" "2024-01-05" Scenario.world_over).1
    = [].
Proof.
  split.
  - destruct (fetch_error_taxonomy Scenario.provider
                "INVALID" "2024-01-01" "2024-01-05" Scenario.world_empty
                InvalidSymbolError) as [(H & _)|[(_ & H)|(H & _)]];
      [vm_compute; reflexivity | discriminate H | exact H | discriminate H].
  - destruct (fetch_error_taxonomy Scenario.provider
                "AAPL" "2024-01-01" "2024-01-05" Scenario.world_over
                QuotaExceededError) as [(_ & _ & _ & H)|[(H & _)|(H & _)]];
      [vm_compute; reflexivity | exact H | discriminate H | discriminate H].
Defined.

(** A fetch on an empty cache. *)
Lemma fetch_returns_cached_or_validated_witness :
  quota_used
    (DataFetcher.fetch_historical_data Scenario.provider
       "AAPL" "2024-01-01" "2024-01-05" Scenario.world_empty).1
  = quota_used Scenario.world_empty + 1.
Proof.
  destruct (fetch_returns_cached_or_validated Scenario.provider
              "AAPL" "2024-01-01" "2024-01-05" Scenario.world_empty
              Scenario.sample_data) as [H|(_ & _ & _ & H)];
    [vm_compute; reflexivity | | exact H].
  vm_compute in H. discriminate H.
Defined.

(** Five symbols with ten requests left. *)
Lemma batch_result_within_batch_witness :
  ∃ results,
    (BatchProcessor.fetch_multiple_symbols Scenario.provider
       Scenario.five_symbols "2024-01-01" "2024-01-05"
       Scenario.world_empty).2 = Ok results
    ∧ Z.of_nat (size results) <= 5.
Proof.
  eexists. split; [vm_compute; reflexivity|].
  edestruct (batch_result_within_batch
               (BatchProcessor._fetch_single_symbol Scenario.provider
                  "2024-01-01" "2024-01-05")
               Scenario.five_symbols Scenario.world_empty 5)
    as (_ & _ & H); [vm_compute; reflexivity | vm_compute; reflexivity |].
  apply H. discriminate.
Defined.

